(** * Option payoffs and Black-Scholes prices of the two explorer scripts

    A shallow embedding of the numeric kernel of
    [src/option-payoffs-app.py] and [src/options-EN.py].

    Conventions of the embedding.
    - A float64 of the scripts is a real number ([R]); the integer
      arrays of [options-EN.py] ([np.arange], integer sliders) are
      lists of [Z].
    - A NumPy value is a scalar or a one-dimensional array
      ([Np.ndarray]); arithmetic against a Python number broadcasts
      the number over the array.
    - Python evaluation is a computation in the error monad
      [Py.result]: an operation outside its real domain, an unbound
      name and a shape mismatch end the evaluation.
    - Where the zero divisor at expiry matters, the pricing lines are
      evaluated a second time over [Float64.value], the reals extended
      with the infinities and NaN, with NumPy's warnings collected
      ([AtExpiry]); the two evaluations agree wherever the first one
      succeeds. *)

From Stdlib Require Import Reals Lra Lia ZArith List Bool Sorted.
From Stdlib Require String.
Import String.StringSyntax.
Delimit Scope string_scope with string.
Import ListNotations.

Local Open Scope R_scope.

(** ** Python evaluation: results and errors *)

Module Py.

(** [NumericDomain]: division by zero, logarithm of a non-positive
    number, square root of a negative number.  Python raises
    [ZeroDivisionError] on plain numbers; NumPy emits a
    [RuntimeWarning] and continues with [inf] or [nan], which have no
    counterpart in [R].
    [NameError n]: the global name [n] is read before any statement
    bound it.
    [ValueError]: two arrays cannot be broadcast together. *)
Inductive error : Type :=
| NumericDomain
| NameError (name : String.string)
| ValueError.

Inductive result (A : Type) : Type :=
| Ok (a : A)
| Raise (e : error).

Arguments Ok {A} a.
Arguments Raise {A} e.

Definition bind {A B : Type} (m : result A) (k : A -> result B) : result B :=
  match m with
  | Ok a => k a
  | Raise e => Raise e
  end.

Definition is_ok {A : Type} (m : result A) : Prop :=
  match m with
  | Ok _ => True
  | Raise _ => False
  end.

(** [for x in xs: body], collecting what each iteration appends. *)
Fixpoint for_each {A B : Type} (body : A -> result B) (xs : list A)
  : result (list B) :=
  match xs with
  | [] => Ok []
  | x :: rest =>
      bind (body x) (fun y =>
      bind (for_each body rest) (fun ys => Ok (y :: ys)))
  end.

(** Python's builtin [max(a, b)]: the second argument wins only when
    it is strictly greater. *)
Definition max (a b : R) : R := if Rlt_dec a b then b else a.

(** [x / y] on numbers. *)
Definition truediv (x y : R) : result R :=
  if Req_dec_T y 0 then Raise NumericDomain else Ok (x / y).

End Py.

Notation "x <- m ;; k" := (Py.bind m (fun x => k))
  (at level 61, m at next level, right associativity).

(** ** The part of NumPy the scripts use *)

Module Np.

Inductive ndarray (A : Type) : Type :=
| Scalar (x : A)
| Arr (xs : list A).

Arguments Scalar {A} x.
Arguments Arr {A} xs.

(** A unary ufunc, and a binary ufunc against a Python number. *)
Definition ufunc {A B : Type} (f : A -> B) (a : ndarray A) : ndarray B :=
  match a with
  | Scalar x => Scalar (f x)
  | Arr xs => Arr (map f xs)
  end.

Fixpoint map2 {A B C : Type} (f : A -> B -> C) (xs : list A) (ys : list B)
  : list C :=
  match xs, ys with
  | x :: xs', y :: ys' => f x y :: map2 f xs' ys'
  | _, _ => []
  end.

(** A binary ufunc on two NumPy values.  One-dimensional shapes
    [(n,)] and [(m,)] broadcast when [n = m] or one of them is 1. *)
Definition ufunc2 {A B C : Type} (f : A -> B -> C)
  (a : ndarray A) (b : ndarray B) : Py.result (ndarray C) :=
  match a, b with
  | Scalar x, Scalar y => Py.Ok (Scalar (f x y))
  | Scalar x, Arr ys => Py.Ok (Arr (map (f x) ys))
  | Arr xs, Scalar y => Py.Ok (Arr (map (fun x => f x y) xs))
  | Arr xs, Arr ys =>
      if Nat.eqb (length xs) (length ys) then Py.Ok (Arr (map2 f xs ys))
      else
        match xs, ys with
        | [x], _ => Py.Ok (Arr (map (f x) ys))
        | _, [y] => Py.Ok (Arr (map (fun x => f x y) xs))
        | _, _ => Py.Raise Py.ValueError
        end
  end.

(** Every element satisfies [P]; corresponding elements are related by [Q]. *)
Definition all {A : Type} (P : A -> Prop) (a : ndarray A) : Prop :=
  match a with
  | Scalar x => P x
  | Arr xs => Forall P xs
  end.

Definition all2 {A B : Type} (Q : A -> B -> Prop)
  (a : ndarray A) (b : ndarray B) : Prop :=
  match a, b with
  | Scalar x, Scalar y => Q x y
  | Arr xs, Arr ys => Forall2 Q xs ys
  | _, _ => False
  end.

(** [np.maximum] on one pair of elements: the first argument is kept
    when it is at least the second. *)
Definition maximum (a b : R) : R := if Rle_dec b a then a else b.

Definition greater (a b : R) : bool := if Rlt_dec b a then true else false.
Definition less (a b : R) : bool := if Rlt_dec a b then true else false.

(** [.astype(int)] on a boolean. *)
Definition astype_int (b : bool) : Z := if b then 1%Z else 0%Z.

(** [np.linspace(start, stop, num)]: [num] evenly spaced samples,
    both ends included. *)
Definition linspace (start stop : R) (num : nat) : list R :=
  let step := (stop - start) / INR (num - 1) in
  map (fun i => start + INR i * step) (seq 0 num).

(** [np.arange(start, stop, 1)] on integers. *)
Definition arange (start stop : Z) : list Z :=
  map (fun i => (start + Z.of_nat i)%Z) (seq 0 (Z.to_nat (stop - start))).

(** [np.sqrt], [np.log] on one element. *)
Definition np_sqrt (x : R) : Py.result R :=
  if Rle_dec 0 x then Py.Ok (sqrt x) else Py.Raise Py.NumericDomain.

Definition np_log (x : R) : Py.result R :=
  if Rlt_dec 0 x then Py.Ok (ln x) else Py.Raise Py.NumericDomain.

End Np.

Import Np.

(** ** scipy.stats.norm *)

Module Scipy.

(** The integrand of the standard normal distribution, without its
    normalising constant. *)
Definition gauss (t : R) : R := exp (- (t * t) / 2).

Lemma gauss_even (t : R) : gauss (- t) = gauss t.
Proof. unfold gauss. f_equal. lra. Qed.

Lemma gauss_continuity : continuity gauss.
Proof.
  change (continuity (comp exp (fun t => - (t * t) / 2))).
  apply continuity_comp.
  - apply derivable_continuous.
    apply (derivable_div (- (id * id)) (fct_cte 2))%F.
    + apply derivable_opp, derivable_mult; apply derivable_id.
    + apply derivable_const.
    + intros x. unfold fct_cte. lra.
  - apply derivable_continuous, derivable_exp.
Qed.

Definition gauss_integrable (a b : R) : Riemann_integrable gauss a b :=
  match Rle_dec a b with
  | left h => continuity_implies_RiemannInt h (fun x _ => gauss_continuity x)
  | right h =>
      RiemannInt_P1
        (continuity_implies_RiemannInt (Rlt_le _ _ (Rnot_le_lt _ _ h))
           (fun x _ => gauss_continuity x))
  end.

(** [norm.cdf]: the standard normal cumulative distribution function,
    [1/2 + (1 / sqrt (2 pi)) * integral from 0 to x of exp (- t^2 / 2)]. *)
Definition norm_cdf (x : R) : R :=
  1 / 2 + / sqrt (2 * PI) * RiemannInt (gauss_integrable 0 x).

End Scipy.

(** ** src/option-payoffs-app.py *)

Module OptionPayoffsApp.

(** Lines 41-51: the four payoff functions.  [S] is a NumPy value,
    [K] a Python number. *)
Definition call_payoff (S : ndarray R) (K : R) : ndarray R :=
  ufunc (fun x => Np.maximum x 0) (ufunc (fun s => s - K) S).

Definition put_payoff (S : ndarray R) (K : R) : ndarray R :=
  ufunc (fun x => Np.maximum x 0) (ufunc (fun s => K - s) S).

Definition binary_call_payoff (S : ndarray R) (K : R) : ndarray Z :=
  ufunc astype_int (ufunc (fun s => greater s K) S).

Definition binary_put_payoff (S : ndarray R) (K : R) : ndarray Z :=
  ufunc astype_int (ufunc (fun s => less s K) S).

(** Lines 199 and 507: the price grid of the strategy and parity pages. *)
Definition S_range : ndarray R := Arr (linspace 50 150 100).

(** Lines 291-293: the straddle. *)
Definition straddle_payoff (K : R) : Py.result (ndarray R) :=
  let call := call_payoff S_range K in
  let put := put_payoff S_range K in
  ufunc2 Rplus call put.

(** Lines 510-521: the curves of the parity plot, [Call - Put] and
    [Stock - Strike]. *)
Definition stock_minus_bond (K : R) : ndarray R :=
  ufunc (fun s => s - K) S_range.

Definition call_minus_put (K : R) : Py.result (ndarray R) :=
  let call_payoff_values := call_payoff S_range K in
  let put_payoff_values := put_payoff S_range K in
  ufunc2 Rminus call_payoff_values put_payoff_values.

(** Lines 479-480, repeated verbatim at 578-579, 662-663, 702-703,
    707-708, 712-713, 772-773, 861-862, 942-943 and 972-973:
    [d1 = 1/(vol*np.sqrt(T)) * (np.log(S/K) + (r + vol**2/2)*T)] and
    [d2 = d1 - vol*np.sqrt(T)], on one price [S]. *)
Definition d1 (S K r vol T : R) : Py.result R :=
  sqrt_T <- np_sqrt T ;;
  inv <- Py.truediv 1 (vol * sqrt_T) ;;
  moneyness <- Py.truediv S K ;;
  log_m <- np_log moneyness ;;
  Py.Ok (inv * (log_m + (r + vol ^ 2 / 2) * T)).

Definition d2 (d1 vol T : R) : Py.result R :=
  sqrt_T <- np_sqrt T ;;
  Py.Ok (d1 - vol * sqrt_T).

(** Lines 482-483 and their copies, with [cdf] the function the name
    [norm.cdf] evaluates to. *)
Definition call_price (cdf : R -> R) (S K r T d1 d2 : R) : R :=
  S * cdf d1 - K * exp (- r * T) * cdf d2.

Definition put_price (cdf : R -> R) (S K r T d1 d2 : R) : R :=
  K * exp (- r * T) * cdf (- d2) - S * cdf (- d1).

(** Reading the global name [norm]: bound by
    [from scipy.stats import norm] (lines 481 and 580) or not at all. *)
Definition norm_binding : Type := option (R -> R).

Definition read_norm (norm : norm_binding) : Py.result (R -> R) :=
  match norm with
  | Some cdf => Py.Ok cdf
  | None => Py.Raise (Py.NameError "norm"%string)
  end.

(** Lines 472-494: the numbers of the Put-Call Parity page.  [S0], [K]
    and [T] are slider values, [r] the rate slider divided by 100. *)
Record parity_numbers : Type := {
  pn_d1 : R;
  pn_d2 : R;
  pn_call_price : R;
  pn_put_price : R;
  left_side : R;
  right_side : R
}.

Definition put_call_parity (S0 K r T : R) : Py.result parity_numbers :=
  let vol := 0.2 in
  d1 <- d1 S0 K r vol T ;;
  d2 <- d2 d1 vol T ;;
  let norm := Some Scipy.norm_cdf in
  cdf <- read_norm norm ;;
  let call_price := call_price cdf S0 K r T d1 d2 in
  let put_price := put_price cdf S0 K r T d1 d2 in
  Py.Ok {| pn_d1 := d1;
           pn_d2 := d2;
           pn_call_price := call_price;
           pn_put_price := put_price;
           left_side := call_price - put_price;
           right_side := S0 - K * exp (- r * T) |}.

(** Lines 569-582: the price curves of the "Underlying Asset Price"
    factor, vectorised over the grid. *)
Definition call_put_prices : Py.result (list R * list R) :=
  let K := 100 in
  let r := 0.05 in
  let T := 1 in
  let vol := 0.2 in
  let S_range := linspace 70 130 100 in
  sqrt_T <- np_sqrt T ;;
  inv <- Py.truediv 1 (vol * sqrt_T) ;;
  log_m <- Py.for_each (fun s => m <- Py.truediv s K ;; np_log m) S_range ;;
  let d1 := map (fun l => inv * (l + (r + vol ^ 2 / 2) * T)) log_m in
  sqrt_T' <- np_sqrt T ;;
  let d2 := map (fun d => d - vol * sqrt_T') d1 in
  let norm := Some Scipy.norm_cdf in
  cdf <- read_norm norm ;;
  let call_prices :=
    map2 Rminus
      (map2 Rmult S_range (map cdf d1))
      (map (fun c => K * exp (- r * T) * c) (map cdf d2)) in
  cdf' <- read_norm norm ;;
  let put_prices :=
    map2 Rminus
      (map (fun c => K * exp (- r * T) * c) (map cdf' (map Ropp d2)))
      (map2 Rmult S_range (map cdf' (map Ropp d1))) in
  Py.Ok (call_prices, put_prices).

(** Lines 646-649 and 686-718: the time-decay loop of the "Time to
    Expiry" factor.  [norm] is the binding of the name when the branch
    runs; the branch holds no import of its own. *)
Definition years : list R := map (fun d => d / 365) (linspace 365 0 100).

Definition bs_call (norm : norm_binding) (S K r vol T : R) : Py.result R :=
  d1 <- d1 S K r vol T ;;
  d2 <- d2 d1 vol T ;;
  cdf <- read_norm norm ;;
  Py.Ok (call_price cdf S K r T d1 d2).

Definition time_decay_step (norm : norm_binding) (T : R)
  : Py.result (R * R * R) :=
  let S0 := 100 in
  let K := 100 in
  let r := 0.05 in
  let vol := 0.2 in
  if Req_dec_T T 0 then
    let atm_call := Py.max (S0 - K) 0 in
    let otm_call := Py.max (S0 * 0.9 - K) 0 in
    let itm_call := Py.max (S0 * 1.1 - K) 0 in
    Py.Ok (atm_call, otm_call, itm_call)
  else
    atm_call <- bs_call norm S0 K r vol T ;;
    otm_call <- bs_call norm (S0 * 0.9) K r vol T ;;
    itm_call <- bs_call norm (S0 * 1.1) K r vol T ;;
    Py.Ok (atm_call, otm_call, itm_call).

Definition time_decay (norm : norm_binding) : Py.result (list (R * R * R)) :=
  Py.for_each (time_decay_step norm) years.

End OptionPayoffsApp.

(** ** src/options-EN.py *)

Module OptionsEN.

Local Open Scope Z_scope.

(** The two select boxes of the Option Payoffs page (lines 238-241). *)
Inductive option_type : Type := Call | Put.
Inductive position : Type := Long | Short.

(** [np.maximum] and [np.minimum] on one pair of integers. *)
Definition maximum (a b : Z) : Z := if b <=? a then a else b.
Definition minimum (a b : Z) : Z := if a <=? b then a else b.

(** Line 250: [np.arange(40, 160, 1)]. *)
Definition stock_prices : list Z := arange 40 160.

Record diagram : Type := {
  payoffs : list Z;
  profits : list Z
}.

(** Lines 253-274: the two plotted arrays for the chosen option type,
    position, strike and premium. *)
Definition payoff_diagram (ot : option_type) (pos : position)
  (strike_price premium : Z) : diagram :=
  match ot with
  | Call =>
      match pos with
      | Long =>
          let payoffs :=
            map (fun x => maximum x 0)
              (map (fun s => s - strike_price) stock_prices) in
          {| payoffs := payoffs;
             profits := map (fun x => x - premium) payoffs |}
      | Short =>
          {| payoffs :=
               map (fun x => minimum x 0)
                 (map (fun s => strike_price - s) stock_prices);
             profits :=
               map (fun x => x + premium)
                 (map Z.opp
                    (map (fun x => maximum x 0)
                       (map (fun s => s - strike_price) stock_prices))) |}
      end
  | Put =>
      match pos with
      | Long =>
          let payoffs :=
            map (fun x => maximum x 0)
              (map (fun s => strike_price - s) stock_prices) in
          {| payoffs := payoffs;
             profits := map (fun x => x - premium) payoffs |}
      | Short =>
          {| payoffs :=
               map (fun x => x + premium)
                 (map Z.opp
                    (map (fun x => maximum x 0)
                       (map (fun s => strike_price - s) stock_prices)));
             profits :=
               map (fun x => x + premium)
                 (map Z.opp
                    (map (fun x => maximum x 0)
                       (map (fun s => strike_price - s) stock_prices))) |}
      end
  end.

End OptionsEN.

(** ** The textbook Black-Scholes formulation *)

Module Textbook.

(** The formulas as the specification words them, with [N] the
    standard normal cumulative distribution function. *)
Definition N : R -> R := Scipy.norm_cdf.

Definition d1 (S K r vol T : R) : R :=
  (ln (S / K) + (r + vol ^ 2 / 2) * T) / (vol * sqrt T).

Definition d2 (S K r vol T : R) : R :=
  d1 S K r vol T - vol * sqrt T.

Definition call (S K r vol T : R) : R :=
  S * N (d1 S K r vol T) - K * exp (- (r * T)) * N (d2 S K r vol T).

Definition put (S K r vol T : R) : R :=
  K * exp (- (r * T)) * N (- d2 S K r vol T) - S * N (- d1 S K r vol T).

End Textbook.

Import OptionPayoffsApp.

(** * Properties *)

(** ** NumPy and Python helpers *)

Lemma maximum_Rmax (a b : R) : Np.maximum a b = Rmax a b.
Proof.
  unfold Np.maximum, Rmax.
  destruct (Rle_dec b a), (Rle_dec a b); lra.
Qed.

Lemma py_max_Rmax (a b : R) : Py.max a b = Rmax a b.
Proof.
  unfold Py.max, Rmax.
  destruct (Rlt_dec a b), (Rle_dec a b); lra.
Qed.

Lemma maximum_Zmax (a b : Z) : OptionsEN.maximum a b = Z.max a b.
Proof. unfold OptionsEN.maximum. destruct (Z.leb_spec b a); lia. Qed.

Lemma minimum_Zmin (a b : Z) : OptionsEN.minimum a b = Z.min a b.
Proof. unfold OptionsEN.minimum. destruct (Z.leb_spec a b); lia. Qed.

Lemma map2_map {A B C D : Type} (f : B -> C -> D) (g : A -> B) (h : A -> C)
  (l : list A) :
  map2 f (map g l) (map h l) = map (fun x => f (g x) (h x)) l.
Proof. induction l as [| x l IH]; simpl; [reflexivity | now rewrite IH]. Qed.

Lemma ufunc_ufunc {A B C : Type} (f : A -> B) (g : B -> C) (a : ndarray A) :
  ufunc g (ufunc f a) = ufunc (fun x => g (f x)) a.
Proof. destruct a; simpl; [reflexivity | now rewrite map_map]. Qed.

Lemma ufunc_ext {A B : Type} (f g : A -> B) (a : ndarray A) :
  (forall x, f x = g x) -> ufunc f a = ufunc g a.
Proof.
  intros H. destruct a; simpl; [now rewrite H |].
  f_equal. apply map_ext, H.
Qed.

(** Two arrays computed from the same array always broadcast. *)
Lemma ufunc2_ufunc {A B C D : Type} (f : B -> C -> D) (g : A -> B)
  (h : A -> C) (a : ndarray A) :
  ufunc2 f (ufunc g a) (ufunc h a) = Py.Ok (ufunc (fun x => f (g x) (h x)) a).
Proof.
  destruct a as [x | xs]; simpl; [reflexivity |].
  rewrite !length_map, Nat.eqb_refl. now rewrite map2_map.
Qed.

Lemma all_ufunc {A B : Type} (P : B -> Prop) (f : A -> B) (a : ndarray A) :
  (forall x, P (f x)) -> Np.all P (ufunc f a).
Proof.
  intros H. destruct a as [x | xs]; simpl; [apply H |].
  apply Forall_map, Forall_forall. intros; apply H.
Qed.

Lemma all2_ufunc {A B : Type} (Q : A -> B -> Prop) (f : A -> B)
  (a : ndarray A) :
  (forall x, Q x (f x)) -> Np.all2 Q a (ufunc f a).
Proof.
  intros H. destruct a as [x | xs]; simpl; [apply H |].
  induction xs; simpl; constructor; auto.
Qed.

(** ** Payoffs at expiry *)

Lemma call_payoff_pointwise (S : ndarray R) (K : R) :
  call_payoff S K = ufunc (fun s => Rmax (s - K) 0) S.
Proof.
  unfold call_payoff. rewrite ufunc_ufunc.
  apply ufunc_ext. intros; apply maximum_Rmax.
Qed.

Lemma put_payoff_pointwise (S : ndarray R) (K : R) :
  put_payoff S K = ufunc (fun s => Rmax (K - s) 0) S.
Proof.
  unfold put_payoff. rewrite ufunc_ufunc.
  apply ufunc_ext. intros; apply maximum_Rmax.
Qed.

(** C3.  Put-call payoff parity at expiry: for every price [S], scalar
    or array, and every strike [K], the call payoff minus the put
    payoff is [S - K]; in particular the [Call - Put] curve of the
    Put-Call Parity page coincides with its [Stock - Strike] curve. *)
Theorem payoff_parity_at_expiry :
  (forall (S : ndarray R) (K : R),
      ufunc2 Rminus (call_payoff S K) (put_payoff S K)
      = Py.Ok (ufunc (fun s => s - K) S))
  /\ (forall K : R, call_minus_put K = Py.Ok (stock_minus_bond K)).
Proof.
  assert (H : forall (S : ndarray R) (K : R),
             ufunc2 Rminus (call_payoff S K) (put_payoff S K)
             = Py.Ok (ufunc (fun s => s - K) S)).
  { intros S K. rewrite call_payoff_pointwise, put_payoff_pointwise.
    rewrite ufunc2_ufunc. f_equal. apply ufunc_ext. intros s.
    unfold Rmax. destruct (Rle_dec (s - K) 0), (Rle_dec (K - s) 0); lra. }
  split; [exact H |].
  intros K. unfold call_minus_put, stock_minus_bond. apply H.
Qed.

(** C5.  The call payoff is [max (S - K, 0)] and the put payoff is
    [max (K - S, 0)], element by element, on a scalar as on an array;
    the Long Call and Long Put payoff arrays of the Option Payoffs page
    of [options-EN.py] are these same formulas on its integer grid. *)
Theorem payoff_formulas :
  (forall (S : ndarray R) (K : R),
      call_payoff S K = ufunc (fun s => Rmax (s - K) 0) S
      /\ put_payoff S K = ufunc (fun s => Rmax (K - s) 0) S)
  /\ (forall strike premium : Z,
         let long_call :=
           OptionsEN.payoffs
             (OptionsEN.payoff_diagram OptionsEN.Call OptionsEN.Long
                strike premium) in
         let long_put :=
           OptionsEN.payoffs
             (OptionsEN.payoff_diagram OptionsEN.Put OptionsEN.Long
                strike premium) in
         long_call
         = map (fun s => Z.max (s - strike) 0) OptionsEN.stock_prices
         /\ long_put
            = map (fun s => Z.max (strike - s) 0) OptionsEN.stock_prices
         /\ Arr (map IZR long_call)
            = call_payoff (Arr (map IZR OptionsEN.stock_prices)) (IZR strike)
         /\ Arr (map IZR long_put)
            = put_payoff (Arr (map IZR OptionsEN.stock_prices)) (IZR strike)).
Proof.
  split.
  - intros S K. split;
      [apply call_payoff_pointwise | apply put_payoff_pointwise].
  - intros strike premium.
    cbn [OptionsEN.payoffs OptionsEN.payoff_diagram].
    rewrite call_payoff_pointwise, put_payoff_pointwise. cbn [ufunc].
    rewrite !map_map.
    repeat split; try (apply map_ext; intros; apply maximum_Zmax);
      f_equal; apply map_ext; intros s; rewrite maximum_Zmax;
      rewrite <- minus_IZR; change 0 with (IZR 0);
      unfold Rmax, Z.max.
    + destruct (Rle_dec (IZR (s - strike)) (IZR 0)) as [h | h];
        destruct (Z.compare_spec (s - strike) 0) as [e | e | e];
        try reflexivity; try (now rewrite e);
        [apply le_IZR in h; lia | exfalso; apply h, IZR_le; lia].
    + destruct (Rle_dec (IZR (strike - s)) (IZR 0)) as [h | h];
        destruct (Z.compare_spec (strike - s) 0) as [e | e | e];
        try reflexivity; try (now rewrite e);
        [apply le_IZR in h; lia | exfalso; apply h, IZR_le; lia].
Qed.

(** C6.  The binary call payoff is the indicator of [S > K] and the
    binary put payoff the indicator of [S < K]: each element of the
    result is 1 where the strict inequality holds and 0 elsewhere. *)
Theorem binary_payoffs_are_indicators (S : ndarray R) (K : R) :
  Np.all2 (fun s v => (v = 1%Z /\ s > K) \/ (v = 0%Z /\ ~ s > K))
    S (binary_call_payoff S K)
  /\ Np.all2 (fun s v => (v = 1%Z /\ s < K) \/ (v = 0%Z /\ ~ s < K))
       S (binary_put_payoff S K).
Proof.
  unfold binary_call_payoff, binary_put_payoff. rewrite !ufunc_ufunc.
  split; apply all2_ufunc; intros s; unfold greater, less, astype_int.
  - destruct (Rlt_dec K s); [left | right]; split; auto.
  - destruct (Rlt_dec s K); [left | right]; split; auto.
Qed.

(** C7.  Call and put payoffs are never negative. *)
Theorem payoffs_nonnegative (S : ndarray R) (K : R) :
  Np.all (fun v => 0 <= v) (call_payoff S K)
  /\ Np.all (fun v => 0 <= v) (put_payoff S K).
Proof.
  rewrite call_payoff_pointwise, put_payoff_pointwise.
  split; apply all_ufunc; intros s; apply Rmax_r.
Qed.

(** C8.  The binary call and the binary put add up to 1 where
    [S <> K] and to 0 where [S = K]; exactly at the money both pay 0. *)
Theorem binary_payoffs_sum (S : ndarray R) (K : R) :
  ufunc2 Z.add (binary_call_payoff S K) (binary_put_payoff S K)
  = Py.Ok (ufunc (fun s => if Req_dec_T s K then 0%Z else 1%Z) S)
  /\ binary_call_payoff (Scalar K) K = Scalar 0%Z
  /\ binary_put_payoff (Scalar K) K = Scalar 0%Z.
Proof.
  unfold binary_call_payoff, binary_put_payoff. rewrite !ufunc_ufunc.
  rewrite ufunc2_ufunc. repeat split.
  - f_equal. apply ufunc_ext. intros s. unfold greater, less, astype_int.
    destruct (Rlt_dec K s), (Rlt_dec s K), (Req_dec_T s K);
      try reflexivity; lra.
  - simpl. unfold greater. destruct (Rlt_dec K K); [lra | reflexivity].
  - simpl. unfold less. destruct (Rlt_dec K K); [lra | reflexivity].
Qed.

(** C9.  The call payoff plus the put payoff is [|S - K|]; the
    straddle of the Option Strategies page is the absolute difference
    between each grid price and the strike. *)
Theorem straddle_is_absolute_difference :
  (forall (S : ndarray R) (K : R),
      ufunc2 Rplus (call_payoff S K) (put_payoff S K)
      = Py.Ok (ufunc (fun s => Rabs (s - K)) S))
  /\ (forall K : R,
         straddle_payoff K = Py.Ok (ufunc (fun s => Rabs (s - K)) S_range)).
Proof.
  assert (H : forall (S : ndarray R) (K : R),
             ufunc2 Rplus (call_payoff S K) (put_payoff S K)
             = Py.Ok (ufunc (fun s => Rabs (s - K)) S)).
  { intros S K. rewrite call_payoff_pointwise, put_payoff_pointwise.
    rewrite ufunc2_ufunc. f_equal. apply ufunc_ext. intros s.
    unfold Rmax, Rabs.
    destruct (Rle_dec (s - K) 0), (Rle_dec (K - s) 0), (Rcase_abs (s - K));
      lra. }
  split; [exact H |].
  intros K. unfold straddle_payoff. apply H.
Qed.

(** ** The Option Payoffs page of options-EN.py *)

Lemma stock_prices_head :
  exists rest, OptionsEN.stock_prices = 40%Z :: rest.
Proof. eexists. reflexivity. Qed.

Lemma shifted_array_differs (c : Z) (l : list Z) :
  c <> 0%Z -> l <> [] -> l <> map (fun x => (x + c)%Z) l.
Proof.
  intros Hc Hl E. destruct l as [| x l]; [now apply Hl |].
  simpl in E. injection E as E _. lia.
Qed.

(** C10.  For a Short Put the "Payoff at Expiry" array already holds
    the premium and is the "Profit/Loss" array itself, both being
    [premium - max (K - S, 0)] on the grid; for Long Call, Long Put and
    Short Call the payoff array does not depend on the premium, the
    profit array is the payoff array shifted by the premium (down for a
    long position, up for a short one), and the two differ as soon as
    the premium is not zero. *)
Theorem short_put_payoff_is_profit (strike premium : Z) :
  let short_put :=
    OptionsEN.payoff_diagram OptionsEN.Put OptionsEN.Short strike premium in
  OptionsEN.payoffs short_put = OptionsEN.profits short_put
  /\ OptionsEN.payoffs short_put
     = map (fun s => (premium - Z.max (strike - s) 0)%Z)
         OptionsEN.stock_prices
  /\ forall (ot : OptionsEN.option_type) (pos : OptionsEN.position),
      (ot, pos) <> (OptionsEN.Put, OptionsEN.Short) ->
      let d := OptionsEN.payoff_diagram ot pos strike premium in
      let shift :=
        match pos with
        | OptionsEN.Long => (- premium)%Z
        | OptionsEN.Short => premium
        end in
      (forall premium' : Z,
          OptionsEN.payoffs (OptionsEN.payoff_diagram ot pos strike premium')
          = OptionsEN.payoffs d)
      /\ OptionsEN.profits d
         = map (fun x => (x + shift)%Z) (OptionsEN.payoffs d)
      /\ (premium <> 0%Z -> OptionsEN.payoffs d <> OptionsEN.profits d).
Proof.
  cbv zeta. split; [reflexivity |]. split.
  - cbn [OptionsEN.payoffs OptionsEN.payoff_diagram]. rewrite !map_map.
    apply map_ext. intros s. rewrite maximum_Zmax. lia.
  - intros ot pos Hne.
    assert (Hshift :
              OptionsEN.profits (OptionsEN.payoff_diagram ot pos strike premium)
              = map (fun x => (x + match pos with
                                   | OptionsEN.Long => - premium
                                   | OptionsEN.Short => premium
                                   end)%Z)
                  (OptionsEN.payoffs
                     (OptionsEN.payoff_diagram ot pos strike premium))).
    { destruct ot, pos; try (now elim Hne);
        cbn [OptionsEN.payoffs OptionsEN.profits OptionsEN.payoff_diagram];
        rewrite !map_map; apply map_ext; intros s;
        rewrite ?maximum_Zmax, ?minimum_Zmin; lia. }
    split; [| split].
    + intros premium'. destruct ot, pos; try reflexivity. now elim Hne.
    + exact Hshift.
    + intros Hp. rewrite Hshift. apply shifted_array_differs.
      * destruct pos; lia.
      * destruct stock_prices_head as [rest E].
        destruct ot, pos; try (now elim Hne);
          cbn [OptionsEN.payoffs OptionsEN.payoff_diagram];
          rewrite E; discriminate.
Qed.

(** The long call with strike 100 and premium 10: payoff and profit
    arrays differ. *)
Lemma short_put_payoff_is_profit_witness :
  OptionsEN.payoffs
    (OptionsEN.payoff_diagram OptionsEN.Call OptionsEN.Long 100 10)
  <> OptionsEN.profits
       (OptionsEN.payoff_diagram OptionsEN.Call OptionsEN.Long 100 10).
Proof.
  destruct (short_put_payoff_is_profit 100 10) as (_ & _ & H).
  destruct (H OptionsEN.Call OptionsEN.Long) as (_ & _ & Hd).
  - discriminate.
  - apply Hd. discriminate.
Defined.

(** ** The normal distribution function *)

(** The integral of [gauss] over [[-x, 0]] is its integral over [[0, x]]. *)
Lemma gauss_int_reflect (x : R) :
  0 <= x ->
  RiemannInt (Scipy.gauss_integrable (- x) 0)
  = RiemannInt (Scipy.gauss_integrable 0 x).
Proof.
  intros hx.
  assert (hx' : - x <= 0) by lra.
  pose (C0 := fun (y : R) (_ : 0 <= y <= x) => Scipy.gauss_continuity y).
  pose (C1 := fun (y : R) (_ : - x <= y <= 0) => Scipy.gauss_continuity y).
  pose (P := primitive hx (FTC_P1 hx C0)).
  pose (Q := primitive hx' (FTC_P1 hx' C1)).
  pose (G := (- comp P (- id))%F).
  assert (HQ : antiderivative Scipy.gauss Q (- x) 0) by apply RiemannInt_P29.
  assert (HG : antiderivative Scipy.gauss G (- x) 0).
  { split; [| exact hx'].
    intros y Hy.
    assert (D : derivable_pt_lim G y (Scipy.gauss y)).
    { replace (Scipy.gauss y) with (- (Scipy.gauss (- y) * - 1))
        by (rewrite Scipy.gauss_even; ring).
      unfold G. apply derivable_pt_lim_opp.
      apply derivable_pt_lim_comp.
      - replace (-1) with (- 1) by ring.
        apply derivable_pt_lim_opp, derivable_pt_lim_id.
      - unfold P. apply RiemannInt_P28. unfold opp_fct, id. lra. }
    exists (exist _ (Scipy.gauss y) D). reflexivity. }
  destruct (antiderivative_Ucte _ _ _ _ _ HQ HG) as [c Hc].
  rewrite (RiemannInt_P20 hx' (FTC_P1 hx' C1) (Scipy.gauss_integrable (- x) 0)).
  rewrite (RiemannInt_P20 hx (FTC_P1 hx C0) (Scipy.gauss_integrable 0 x)).
  fold P Q.
  rewrite (Hc 0) by lra. rewrite (Hc (- x)) by lra.
  unfold G, opp_fct, comp, id. rewrite Ropp_involutive, Ropp_0. ring.
Qed.

Lemma gauss_int_odd (x : R) :
  RiemannInt (Scipy.gauss_integrable 0 (- x))
  = - RiemannInt (Scipy.gauss_integrable 0 x).
Proof.
  destruct (Rle_dec 0 x) as [hx | hx].
  - rewrite (RiemannInt_P8 (Scipy.gauss_integrable 0 (- x))
               (Scipy.gauss_integrable (- x) 0)).
    now rewrite gauss_int_reflect.
  - assert (hx' : 0 <= - x) by lra.
    rewrite <- (gauss_int_reflect (- x) hx').
    rewrite (RiemannInt_P8 (Scipy.gauss_integrable 0 x)
               (Scipy.gauss_integrable x 0)).
    rewrite (Ropp_involutive (RiemannInt _)).
    generalize (Scipy.gauss_integrable (- - x) 0).
    rewrite (Ropp_involutive x). intros pr. apply RiemannInt_P5.
Qed.

(** [N (- x) = 1 - N x]. *)
Lemma norm_cdf_sym (x : R) : Scipy.norm_cdf (- x) = 1 - Scipy.norm_cdf x.
Proof. unfold Scipy.norm_cdf. rewrite gauss_int_odd. lra. Qed.

Lemma norm_cdf_0 : Scipy.norm_cdf 0 = 1 / 2.
Proof. unfold Scipy.norm_cdf. rewrite RiemannInt_P9. lra. Qed.

(** ** Black-Scholes prices *)

Lemma np_sqrt_ok (T : R) : 0 <= T -> np_sqrt T = Py.Ok (sqrt T).
Proof. intros H. unfold np_sqrt. destruct (Rle_dec 0 T); [reflexivity | lra]. Qed.

Lemma truediv_ok (x y : R) : y <> 0 -> Py.truediv x y = Py.Ok (x / y).
Proof.
  intros H. unfold Py.truediv. destruct (Req_dec_T y 0); [contradiction | reflexivity].
Qed.

Lemma np_log_ok (x : R) : 0 < x -> np_log x = Py.Ok (ln x).
Proof. intros H. unfold np_log. destruct (Rlt_dec 0 x); [reflexivity | lra]. Qed.

Lemma vol_sqrt_T_nonzero (vol T : R) : 0 < vol -> 0 < T -> vol * sqrt T <> 0.
Proof.
  intros Hv HT. pose proof (sqrt_lt_R0 T HT).
  apply Rgt_not_eq. now apply Rmult_lt_0_compat.
Qed.

Lemma d1_ok (S K r vol T : R) :
  0 < S -> 0 < K -> 0 < vol -> 0 < T ->
  d1 S K r vol T = Py.Ok (Textbook.d1 S K r vol T).
Proof.
  intros HS HK Hv HT. unfold d1.
  rewrite np_sqrt_ok by lra. cbn [Py.bind].
  rewrite truediv_ok by now apply vol_sqrt_T_nonzero. cbn [Py.bind].
  rewrite truediv_ok by lra. cbn [Py.bind].
  rewrite np_log_ok by now apply Rdiv_lt_0_compat. cbn [Py.bind].
  f_equal. unfold Textbook.d1, Rdiv. ring.
Qed.

Lemma d2_ok (S K r vol T : R) :
  0 <= T ->
  d2 (Textbook.d1 S K r vol T) vol T = Py.Ok (Textbook.d2 S K r vol T).
Proof.
  intros HT. unfold d2. rewrite np_sqrt_ok by lra. reflexivity.
Qed.

Lemma call_price_textbook (S K r vol T : R) :
  call_price Scipy.norm_cdf S K r T
    (Textbook.d1 S K r vol T) (Textbook.d2 S K r vol T)
  = Textbook.call S K r vol T.
Proof.
  unfold call_price, Textbook.call, Textbook.N.
  now replace (- r * T) with (- (r * T)) by ring.
Qed.

Lemma put_price_textbook (S K r vol T : R) :
  put_price Scipy.norm_cdf S K r T
    (Textbook.d1 S K r vol T) (Textbook.d2 S K r vol T)
  = Textbook.put S K r vol T.
Proof.
  unfold put_price, Textbook.put, Textbook.N.
  now replace (- r * T) with (- (r * T)) by ring.
Qed.

Lemma bs_call_ok (S K r vol T : R) :
  0 < S -> 0 < K -> 0 < vol -> 0 < T ->
  bs_call (Some Scipy.norm_cdf) S K r vol T
  = Py.Ok (Textbook.call S K r vol T).
Proof.
  intros HS HK Hv HT. unfold bs_call.
  rewrite d1_ok by assumption. cbn [Py.bind].
  rewrite d2_ok by lra. cbn [Py.bind read_norm].
  now rewrite call_price_textbook.
Qed.

Lemma put_call_parity_ok (S0 K r T : R) :
  0 < S0 -> 0 < K -> 0 < T ->
  put_call_parity S0 K r T
  = Py.Ok {| pn_d1 := Textbook.d1 S0 K r 0.2 T;
             pn_d2 := Textbook.d2 S0 K r 0.2 T;
             pn_call_price := Textbook.call S0 K r 0.2 T;
             pn_put_price := Textbook.put S0 K r 0.2 T;
             left_side :=
               Textbook.call S0 K r 0.2 T - Textbook.put S0 K r 0.2 T;
             right_side := S0 - K * exp (- r * T) |}.
Proof.
  intros HS HK HT. unfold put_call_parity. cbv zeta.
  rewrite d1_ok by lra. cbn [Py.bind].
  rewrite d2_ok by lra. cbn [Py.bind read_norm].
  now rewrite call_price_textbook, put_price_textbook.
Qed.

(** Put-call parity of the textbook prices, from [N (- x) = 1 - N x]. *)
Lemma textbook_parity (S K r vol T : R) :
  Textbook.call S K r vol T - Textbook.put S K r vol T
  = S - K * exp (- (r * T)).
Proof.
  unfold Textbook.call, Textbook.put, Textbook.N.
  rewrite !norm_cdf_sym. ring.
Qed.

(** C1.  On the Put-Call Parity page, for every asset price [S > 0],
    strike [K > 0], rate [r] and time to expiry [T > 0] (the volatility
    is the constant 0.2), the evaluation succeeds and the two
    Black-Scholes prices satisfy
    [call_price - put_price = S - K * exp (- r * T)] exactly over the
    reals: the page's "Left Side" equals its "Right Side". *)
Theorem black_scholes_put_call_parity (S K r T : R) :
  0 < S -> 0 < K -> 0 < T ->
  exists pn : parity_numbers,
    put_call_parity S K r T = Py.Ok pn
    /\ pn_call_price pn
       = S * Scipy.norm_cdf (pn_d1 pn)
         - K * exp (- r * T) * Scipy.norm_cdf (pn_d2 pn)
    /\ pn_put_price pn
       = K * exp (- r * T) * Scipy.norm_cdf (- pn_d2 pn)
         - S * Scipy.norm_cdf (- pn_d1 pn)
    /\ pn_call_price pn - pn_put_price pn = S - K * exp (- r * T)
    /\ left_side pn = right_side pn.
Proof.
  intros HS HK HT. eexists. split; [now apply put_call_parity_ok |].
  cbn [pn_d1 pn_d2 pn_call_price pn_put_price left_side right_side].
  assert (E : - r * T = - (r * T)) by ring.
  repeat split.
  - unfold Textbook.call, Textbook.N. now rewrite E.
  - unfold Textbook.put, Textbook.N. now rewrite E.
  - rewrite E. apply textbook_parity.
  - rewrite E. apply textbook_parity.
Qed.

(** The page's default sliders: S = 100, K = 100, r = 5 %, T = 1 year. *)
Lemma black_scholes_put_call_parity_witness :
  exists pn : parity_numbers,
    put_call_parity 100 100 0.05 1 = Py.Ok pn
    /\ pn_call_price pn
       = 100 * Scipy.norm_cdf (pn_d1 pn)
         - 100 * exp (- (0.05) * 1) * Scipy.norm_cdf (pn_d2 pn)
    /\ pn_put_price pn
       = 100 * exp (- (0.05) * 1) * Scipy.norm_cdf (- pn_d2 pn)
         - 100 * Scipy.norm_cdf (- pn_d1 pn)
    /\ pn_call_price pn - pn_put_price pn = 100 - 100 * exp (- (0.05) * 1)
    /\ left_side pn = right_side pn.
Proof. apply (black_scholes_put_call_parity 100 100 0.05 1); lra. Defined.

(** *** The vectorised price curves *)

Lemma for_each_map {A B : Type} (body : A -> Py.result B) (f : A -> B)
  (xs : list A) :
  Forall (fun x => body x = Py.Ok (f x)) xs ->
  Py.for_each body xs = Py.Ok (map f xs).
Proof.
  induction 1 as [| x xs Hx _ IH]; simpl; [reflexivity |].
  now rewrite Hx, IH.
Qed.

Lemma linspace_In (start stop x : R) (num : nat) :
  In x (linspace start stop num) ->
  exists i : nat,
    (i < num)%nat /\ x = start + INR i * ((stop - start) / INR (num - 1)).
Proof.
  unfold linspace. cbv zeta. intros H.
  apply in_map_iff in H. destruct H as (i & <- & Hi).
  apply in_seq in Hi. exists i. split; [lia | reflexivity].
Qed.

Lemma linspace_increasing_lower (start stop x : R) (num : nat) :
  start <= stop -> In x (linspace start stop num) -> start <= x.
Proof.
  intros Hle H. apply linspace_In in H. destruct H as (i & _ & ->).
  assert (0 <= INR i) by apply pos_INR.
  assert (0 <= (stop - start) / INR (num - 1)).
  { destruct (num - 1)%nat as [| n] eqn:E.
    - simpl. rewrite Rdiv_0_r. lra.
    - apply Rle_mult_inv_pos; [lra | apply lt_0_INR; lia]. }
  nra.
Qed.

Lemma map2_self_map {A B C : Type} (f : A -> B -> C) (g : A -> B)
  (l : list A) :
  map2 f l (map g l) = map (fun x => f x (g x)) l.
Proof. induction l as [| x l IH]; simpl; [reflexivity | now rewrite IH]. Qed.

Lemma call_put_prices_ok :
  call_put_prices
  = Py.Ok (map (fun s => Textbook.call s 100 0.05 0.2 1) (linspace 70 130 100),
           map (fun s => Textbook.put s 100 0.05 0.2 1) (linspace 70 130 100)).
Proof.
  unfold call_put_prices. cbv zeta.
  rewrite np_sqrt_ok by lra. cbn [Py.bind].
  rewrite truediv_ok by (apply vol_sqrt_T_nonzero; lra). cbn [Py.bind].
  rewrite (for_each_map _ (fun s => ln (s / 100))).
  2:{ apply Forall_forall. intros s Hs.
      apply linspace_increasing_lower in Hs; [| lra].
      rewrite truediv_ok by lra. cbn [Py.bind].
      apply np_log_ok. apply Rdiv_lt_0_compat; lra. }
  cbn [Py.bind read_norm]. rewrite !map_map.
  rewrite !map2_self_map, !map2_map. f_equal. f_equal.
  - apply map_ext. intros s.
    unfold Textbook.call, Textbook.d2, Textbook.d1, Textbook.N, Rdiv.
    replace (- (0.05) * 1) with (- (0.05 * 1)) by ring.
    f_equal; f_equal; f_equal; ring.
  - apply map_ext. intros s.
    unfold Textbook.put, Textbook.d2, Textbook.d1, Textbook.N, Rdiv.
    replace (- (0.05) * 1) with (- (0.05 * 1)) by ring.
    f_equal; f_equal; f_equal; ring.
Qed.

(** C4.  For [S > 0], [K > 0], [vol > 0] and [T > 0] the pricing code
    computes the standard Black-Scholes formulation:
    [d1 = (ln (S / K) + (r + vol^2 / 2) * T) / (vol * sqrt T)],
    [d2 = d1 - vol * sqrt T],
    [call = S * N d1 - K * exp (- r * T) * N d2] and
    [put = K * exp (- r * T) * N (- d2) - S * N (- d1)], with [N] the
    standard normal distribution function; so do the Put-Call Parity
    page (volatility 0.2) and the vectorised price curves. *)
Theorem black_scholes_standard_formulation (S K r vol T : R) :
  0 < S -> 0 < K -> 0 < vol -> 0 < T ->
  d1 S K r vol T = Py.Ok (Textbook.d1 S K r vol T)
  /\ d2 (Textbook.d1 S K r vol T) vol T = Py.Ok (Textbook.d2 S K r vol T)
  /\ call_price Scipy.norm_cdf S K r T
       (Textbook.d1 S K r vol T) (Textbook.d2 S K r vol T)
     = Textbook.call S K r vol T
  /\ put_price Scipy.norm_cdf S K r T
       (Textbook.d1 S K r vol T) (Textbook.d2 S K r vol T)
     = Textbook.put S K r vol T
  /\ put_call_parity S K r T
     = Py.Ok {| pn_d1 := Textbook.d1 S K r 0.2 T;
                pn_d2 := Textbook.d2 S K r 0.2 T;
                pn_call_price := Textbook.call S K r 0.2 T;
                pn_put_price := Textbook.put S K r 0.2 T;
                left_side :=
                  Textbook.call S K r 0.2 T - Textbook.put S K r 0.2 T;
                right_side := S - K * exp (- r * T) |}
  /\ call_put_prices
     = Py.Ok
         (map (fun s => Textbook.call s 100 0.05 0.2 1) (linspace 70 130 100),
          map (fun s => Textbook.put s 100 0.05 0.2 1) (linspace 70 130 100)).
Proof.
  intros HS HK Hv HT. repeat split.
  - now apply d1_ok.
  - apply d2_ok; lra.
  - apply call_price_textbook.
  - apply put_price_textbook.
  - now apply put_call_parity_ok.
  - apply call_put_prices_ok.
Qed.

(** At the money, one year to expiry. *)
Lemma black_scholes_standard_formulation_witness :
  d1 100 100 0.05 0.2 1 = Py.Ok (Textbook.d1 100 100 0.05 0.2 1)
  /\ d2 (Textbook.d1 100 100 0.05 0.2 1) 0.2 1
     = Py.Ok (Textbook.d2 100 100 0.05 0.2 1).
Proof.
  destruct (black_scholes_standard_formulation 100 100 0.05 0.2 1)
    as (H1 & H2 & _); try lra.
  split; assumption.
Defined.

(** *** The time-decay loop *)

Lemma years_nonnegative (T : R) : In T years -> 0 <= T.
Proof.
  unfold years. intros H. apply in_map_iff in H.
  destruct H as (d & <- & Hd). apply linspace_In in Hd.
  destruct Hd as (i & Hi & ->).
  change (100 - 1)%nat with 99%nat. rewrite (INR_IZR_INZ 99). simpl Z.of_nat.
  assert (INR i <= 99).
  { replace 99 with (INR 99) by (now rewrite INR_IZR_INZ).
    apply le_INR. lia. }
  lra.
Qed.


Lemma time_decay_step_at_expiry (norm : norm_binding) :
  time_decay_step norm 0 = Py.Ok (0, 0, 10).
Proof.
  unfold time_decay_step. cbv zeta.
  destruct (Req_dec_T 0 0) as [_ | H]; [| contradiction].
  rewrite !py_max_Rmax. unfold Rmax.
  repeat match goal with
         | |- context [Rle_dec ?a ?b] => destruct (Rle_dec a b)
         end; repeat f_equal; lra.
Qed.

Lemma time_decay_step_before_expiry (T : R) :
  0 < T ->
  time_decay_step (Some Scipy.norm_cdf) T
  = Py.Ok (Textbook.call 100 100 0.05 0.2 T,
           Textbook.call (100 * 0.9) 100 0.05 0.2 T,
           Textbook.call (100 * 1.1) 100 0.05 0.2 T).
Proof.
  intros HT. unfold time_decay_step. cbv zeta.
  destruct (Req_dec_T T 0) as [H | _]; [lra |].
  rewrite !bs_call_ok by lra. reflexivity.
Qed.

Lemma time_decay_step_unbound (T : R) :
  0 < T ->
  time_decay_step None T = Py.Raise (Py.NameError "norm"%string).
Proof.
  intros HT. unfold time_decay_step. cbv zeta.
  destruct (Req_dec_T T 0) as [H | _]; [lra |].
  unfold bs_call. rewrite d1_ok by lra. cbn [Py.bind].
  rewrite d2_ok by lra. reflexivity.
Qed.

Lemma for_each_is_ok {A B : Type} (body : A -> Py.result B) (xs : list A) :
  Forall (fun x => Py.is_ok (body x)) xs -> Py.is_ok (Py.for_each body xs).
Proof.
  induction 1 as [| x xs Hx _ IH]; simpl; [exact I |].
  destruct (body x); [| contradiction]. cbn [Py.bind].
  destruct (Py.for_each body xs); [exact I | contradiction].
Qed.

(** With [norm] bound, the loop runs through all its iterations, the
    last one at [T = 0] included. *)
Remark time_decay_with_norm : Py.is_ok (time_decay (Some Scipy.norm_cdf)).
Proof.
  unfold time_decay. apply for_each_is_ok, Forall_forall. intros T HT.
  apply years_nonnegative in HT. destruct HT as [HT | <-].
  - now rewrite time_decay_step_before_expiry.
  - now rewrite time_decay_step_at_expiry.
Qed.

(** The "Time to Expiry" branch never imports [norm]: left unbound, the
    loop stops in its first iteration, one year before expiry. *)
Remark time_decay_without_norm :
  time_decay None = Py.Raise (Py.NameError "norm"%string).
Proof.
  unfold time_decay, years, linspace. cbv zeta.
  change (seq 0 100) with (0%nat :: seq 1 99). cbn [map Py.for_each].
  rewrite time_decay_step_unbound; [reflexivity |].
  simpl INR. lra.
Qed.

(** * Further pages of the two scripts *)

(** ** src/option-payoffs-app.py: the Basic Options page *)

Module BasicOptions.

Local Open Scope Z_scope.

(** Line 78: the radio button. *)
Inductive option_type : Type := Call | Put | BinaryCall | BinaryPut.

(** Python's builtin [max(a, b)] on integers. *)
Definition max (a b : Z) : Z := if a <? b then b else a.

(** Lines 80-98: the two plotted curves.  The binary payoffs come out
    of [.astype(int)] as integer arrays and stay so after the integer
    premium is subtracted. *)
Inductive curves : Type :=
| FloatCurves (payoff profit : ndarray R)
| IntCurves (payoff profit : ndarray Z).

Definition payoff_profit (ot : option_type) (K premium : Z) : curves :=
  match ot with
  | Call =>
      FloatCurves
        (call_payoff S_range (IZR K))
        (ufunc (fun x => (x - IZR premium)%R) (call_payoff S_range (IZR K)))
  | Put =>
      FloatCurves
        (put_payoff S_range (IZR K))
        (ufunc (fun x => (x - IZR premium)%R) (put_payoff S_range (IZR K)))
  | BinaryCall =>
      IntCurves
        (binary_call_payoff S_range (IZR K))
        (ufunc (fun x => x - premium) (binary_call_payoff S_range (IZR K)))
  | BinaryPut =>
      IntCurves
        (binary_put_payoff S_range (IZR K))
        (ufunc (fun x => x - premium) (binary_put_payoff S_range (IZR K)))
  end.

(** Lines 110-118: the breakeven price, and the vertical line drawn
    for it when it falls on the plotted side of the axis. *)
Definition breakeven (ot : option_type) (K premium : Z) : option Z :=
  match ot with
  | Call => Some (K + premium)
  | Put => Some (K - premium)
  | BinaryCall | BinaryPut => None
  end.

Definition breakeven_line (ot : option_type) (K premium : Z) : option Z :=
  match ot with
  | Call =>
      let breakeven := K + premium in
      if breakeven <=? 150 then Some breakeven else None
  | Put =>
      let breakeven := K - premium in
      if 50 <=? breakeven then Some breakeven else None
  | BinaryCall | BinaryPut => None
  end.

(** Lines 137-147: the value summary. *)
Definition current_intrinsic (ot : option_type) (S0 K : Z) : Z :=
  match ot with
  | Call => max (S0 - K) 0
  | Put => max (K - S0) 0
  | BinaryCall => if K <? S0 then 1 else 0
  | BinaryPut => if S0 <? K then 1 else 0
  end.

Definition time_value (ot : option_type) (S0 K premium : Z) : Z :=
  max 0 (premium - current_intrinsic ot S0 K).

(** Lines 157-171: the moneyness label. *)
Inductive moneyness : Type := In_the_money | Out_of_the_money | At_the_money.

Definition status (ot : option_type) (S0 K : Z) : moneyness :=
  match ot with
  | Call | BinaryCall =>
      if K <? S0 then In_the_money
      else if S0 <? K then Out_of_the_money
      else At_the_money
  | Put | BinaryPut =>
      if S0 <? K then In_the_money
      else if K <? S0 then Out_of_the_money
      else At_the_money
  end.

End BasicOptions.

(** ** src/option-payoffs-app.py: the Option Strategies page *)

Module Strategies.

(** Lines 214-216. *)
Definition bull_spread (K1 K2 : R) : Py.result (ndarray R) :=
  let long_call := call_payoff S_range K1 in
  let short_call := ufunc Ropp (call_payoff S_range K2) in
  ufunc2 Rplus long_call short_call.

(** Lines 253-255. *)
Definition bear_spread (K1 K2 : R) : Py.result (ndarray R) :=
  let long_put := put_payoff S_range K2 in
  let short_put := ufunc Ropp (put_payoff S_range K1) in
  ufunc2 Rplus long_put short_put.

(** Lines 331-333. *)
Definition strangle_payoff (K1 K2 : R) : Py.result (ndarray R) :=
  let call := call_payoff S_range K2 in
  let put := put_payoff S_range K1 in
  ufunc2 Rplus call put.

(** Lines 374-377. *)
Definition butterfly_payoff (K1 K2 K3 : R) : Py.result (ndarray R) :=
  let call1 := call_payoff S_range K1 in
  let call2 := ufunc (fun x => -2 * x) (call_payoff S_range K2) in
  let call3 := call_payoff S_range K3 in
  lower <- ufunc2 Rplus call1 call2 ;;
  ufunc2 Rplus lower call3.

(** Lines 419-421. *)
Definition risk_reversal_payoff (K1 K2 : R) : Py.result (ndarray R) :=
  let short_put := ufunc Ropp (put_payoff S_range K1) in
  let long_call := call_payoff S_range K2 in
  ufunc2 Rplus short_put long_call.

End Strategies.

(** ** src/option-payoffs-app.py: the Factors Affecting Price page *)

Module Factors.

(** The vectorised copies of the pricing lines, on a grid of asset
    prices: [d1], [d2], then the call and the put prices, each of which
    reads the name [norm]. *)
Definition d1_d2 (S_range : list R) (K r vol T : R)
  : Py.result (list R * list R) :=
  sqrt_T <- np_sqrt T ;;
  inv <- Py.truediv 1 (vol * sqrt_T) ;;
  log_m <- Py.for_each (fun s => m <- Py.truediv s K ;; np_log m) S_range ;;
  let d1 := map (fun l => inv * (l + (r + vol ^ 2 / 2) * T)) log_m in
  sqrt_T' <- np_sqrt T ;;
  let d2 := map (fun d => d - vol * sqrt_T') d1 in
  Py.Ok (d1, d2).

Definition call_prices (norm : norm_binding) (S_range : list R)
  (K r T : R) (d1 d2 : list R) : Py.result (list R) :=
  cdf <- read_norm norm ;;
  Py.Ok (map2 Rminus
           (map2 Rmult S_range (map cdf d1))
           (map (fun c => K * exp (- r * T) * c) (map cdf d2))).

Definition put_prices (norm : norm_binding) (S_range : list R)
  (K r T : R) (d1 d2 : list R) : Py.result (list R) :=
  cdf <- read_norm norm ;;
  Py.Ok (map2 Rminus
           (map (fun c => K * exp (- r * T) * c) (map cdf (map Ropp d2)))
           (map2 Rmult S_range (map cdf (map Ropp d1)))).

Definition call_curve (norm : norm_binding) (S_range : list R)
  (K r vol T : R) : Py.result (list R) :=
  dd <- d1_d2 S_range K r vol T ;;
  call_prices norm S_range K r T (fst dd) (snd dd).

Definition call_put_curves (norm : norm_binding) (S_range : list R)
  (K r vol T : R) : Py.result (list R * list R) :=
  dd <- d1_d2 S_range K r vol T ;;
  calls <- call_prices norm S_range K r T (fst dd) (snd dd) ;;
  puts <- put_prices norm S_range K r T (fst dd) (snd dd) ;;
  Py.Ok (calls, puts).

(** Lines 603-606, after the price curves of lines 569-582:
    [call_delta = norm.cdf(d1)], [put_delta = call_delta - 1]. *)
Definition deltas : Py.result (list R * list R) :=
  let K := 100 in
  let r := 0.05 in
  let T := 1 in
  let vol := 0.2 in
  let S_range := linspace 70 130 100 in
  dd <- d1_d2 S_range K r vol T ;;
  let norm := Some Scipy.norm_cdf in
  cdf <- read_norm norm ;;
  let call_delta := map cdf (fst dd) in
  let put_delta := map (fun x => x - 1) call_delta in
  Py.Ok (call_delta, put_delta).

(** Lines 645-718: "Time to Expiry".  One call curve per horizon, then
    the time-decay loop. *)
Definition T_values : list R := [2; 1; 0.5; 0.25; 0.1; 0.01].

Definition time_to_expiry (norm : norm_binding)
  : Py.result (list (list R) * list (R * R * R)) :=
  let K := 100 in
  let r := 0.05 in
  let vol := 0.2 in
  let S_range := linspace 70 130 100 in
  curves <- Py.for_each (fun T => call_curve norm S_range K r vol T)
              T_values ;;
  decay <- time_decay norm ;;
  Py.Ok (curves, decay).

(** Lines 753-803: "Volatility".  One call curve per volatility, then
    the synthetic smile over nine strikes. *)
Definition vol_values : list R := [0.1; 0.2; 0.3; 0.4; 0.5].

Definition vol_smile (K k : R) : R :=
  let atm_vol := 0.2 in
  atm_vol + 0.001 * (k - K) ^ 2.

Definition volatility (norm : norm_binding)
  : Py.result (list (list R) * list R) :=
  let K := 100 in
  let r := 0.05 in
  let T := 1 in
  let S_range := linspace 70 130 100 in
  curves <- Py.for_each (fun vol => call_curve norm S_range K r vol T)
              vol_values ;;
  let strikes := linspace 80 120 9 in
  let implied_vols := map (vol_smile K) strikes in
  Py.Ok (curves, implied_vols).

(** Lines 845-891: "Interest Rate".  Call and put curves per rate,
    then the present value of the strike over a grid of rates. *)
Definition r_values : list R := [0.01; 0.03; 0.05; 0.07; 0.10].

Definition pv_strike (K T : R) : list R :=
  let r_range := linspace 0.01 0.10 100 in
  map (fun r => K * exp (- r * T)) r_range.

Definition interest_rate (norm : norm_binding)
  : Py.result (list (list R * list R) * list R) :=
  let K := 100 in
  let T := 1 in
  let vol := 0.2 in
  let S_range := linspace 70 130 100 in
  curves <- Py.for_each (fun r => call_put_curves norm S_range K r vol T)
              r_values ;;
  Py.Ok (curves, pv_strike K T).

(** Lines 925-975: "Strike Price".  Call and put curves per strike,
    then both prices as functions of the strike at the fixed asset
    price [S0]. *)
Definition K_values : list R := [80; 90; 100; 110; 120].

Definition prices_by_strike (norm : norm_binding) (S0 r vol T : R)
  : Py.result (list R * list R) :=
  let K_range := linspace 70 130 100 in
  sqrt_T <- np_sqrt T ;;
  inv <- Py.truediv 1 (vol * sqrt_T) ;;
  log_m <- Py.for_each (fun k => m <- Py.truediv S0 k ;; np_log m) K_range ;;
  let d1 := map (fun l => inv * (l + (r + vol ^ 2 / 2) * T)) log_m in
  sqrt_T' <- np_sqrt T ;;
  let d2 := map (fun d => d - vol * sqrt_T') d1 in
  cdf <- read_norm norm ;;
  let call_prices :=
    map2 Rminus
      (map (fun c => S0 * c) (map cdf d1))
      (map2 Rmult (map (fun k => k * exp (- r * T)) K_range) (map cdf d2)) in
  cdf' <- read_norm norm ;;
  let put_prices :=
    map2 Rminus
      (map2 Rmult (map (fun k => k * exp (- r * T)) K_range)
         (map cdf' (map Ropp d2)))
      (map (fun c => S0 * c) (map cdf' (map Ropp d1))) in
  Py.Ok (call_prices, put_prices).

Definition strike_price (norm : norm_binding)
  : Py.result (list (list R * list R) * (list R * list R)) :=
  let S0 := 100 in
  let r := 0.05 in
  let T := 1 in
  let vol := 0.2 in
  let S_range := linspace 70 130 100 in
  curves <- Py.for_each (fun K => call_put_curves norm S_range K r vol T)
              K_values ;;
  by_strike <- prices_by_strike norm S0 r vol T ;;
  Py.Ok (curves, by_strike).

End Factors.

(** ** src/options-EN.py: Put-Call Parity, Option Strategies, Glossary *)

Module ParityEN.

(** Line 373: which price the user enters; the other is derived. *)
Inductive option_choice : Type := InputCall | InputPut.

(** The numbers of the table of lines 386-396. *)
Record parity_table : Type := {
  call_price : R;
  put_price : R;
  discounted_strike : R;
  c_minus_p : R;
  right_side : R
}.

(** Lines 359-396.  [rate_pct] is the rate slider, [price] the slider
    of the chosen option. *)
Definition put_call_parity (asset_price strike_price : Z)
  (rate_pct time_to_expiry : R) (choice : option_choice) (price : R)
  : parity_table :=
  let interest_rate := rate_pct / 100 in
  let right_side :=
    IZR asset_price
    - IZR strike_price * exp (- interest_rate * time_to_expiry) in
  match choice with
  | InputCall =>
      let call_price := price in
      let put_price := call_price - right_side in
      {| call_price := call_price;
         put_price := put_price;
         discounted_strike :=
           IZR strike_price * exp (- interest_rate * time_to_expiry);
         c_minus_p := call_price - put_price;
         right_side := right_side |}
  | InputPut =>
      let put_price := price in
      let call_price := put_price + right_side in
      {| call_price := call_price;
         put_price := put_price;
         discounted_strike :=
           IZR strike_price * exp (- interest_rate * time_to_expiry);
         c_minus_p := call_price - put_price;
         right_side := right_side |}
  end.

End ParityEN.

Module StrategiesEN.

Local Open Scope Z_scope.

(** Lines 426-429: the strategy selector. *)
Inductive strategy : Type :=
| BullSpread | BearSpread | Straddle | Strangle | ButterflySpread
| RiskReversal.

(** Lines 438-444: the strike sliders; each strategy reads its own. *)
Record strikes : Type := {
  lower_strike : Z;
  upper_strike : Z;
  center_strike : Z;
  put_strike : Z;
  call_strike : Z
}.

(** What [st.metric("Maximum Profit", ...)] receives: a number or the
    text "Unlimited". *)
Inductive metric : Type :=
| Amount (z : Z)
| Unlimited.

(** Line 447: [np.arange(50, 150, 1)]. *)
Definition stock_prices : list Z := arange 50 150.

Definition long_leg (strike : Z) : list Z :=
  map (fun x => OptionsEN.maximum x 0)
    (map (fun s => s - strike) stock_prices).

Definition long_put_leg (strike : Z) : list Z :=
  map (fun x => OptionsEN.maximum x 0)
    (map (fun s => strike - s) stock_prices).

(** Lines 450-545: the plotted payoffs of each strategy. *)
Definition payoffs (st : strategy) (k : strikes) : list Z :=
  match st with
  | BullSpread =>
      let long_call_payoff := long_leg (lower_strike k) in
      let short_call_payoff := map Z.opp (long_leg (upper_strike k)) in
      map2 Z.add long_call_payoff short_call_payoff
  | BearSpread =>
      let long_put_payoff := long_put_leg (upper_strike k) in
      let short_put_payoff := map Z.opp (long_put_leg (lower_strike k)) in
      map2 Z.add long_put_payoff short_put_payoff
  | Straddle =>
      let call_payoff := long_leg (center_strike k) in
      let put_payoff := long_put_leg (center_strike k) in
      map2 Z.add call_payoff put_payoff
  | Strangle =>
      let call_payoff := long_leg (call_strike k) in
      let put_payoff := long_put_leg (put_strike k) in
      map2 Z.add call_payoff put_payoff
  | ButterflySpread =>
      let wing_width := 10 in
      let lower_strike := center_strike k - wing_width in
      let upper_strike := center_strike k + wing_width in
      let lower_call_payoff := long_leg lower_strike in
      let middle_call_payoff :=
        map (fun x => -2 * x) (long_leg (center_strike k)) in
      let upper_call_payoff := long_leg upper_strike in
      map2 Z.add (map2 Z.add lower_call_payoff middle_call_payoff)
        upper_call_payoff
  | RiskReversal =>
      let call_payoff := long_leg (upper_strike k) in
      let put_payoff := map Z.opp (long_put_leg (lower_strike k)) in
      map2 Z.add call_payoff put_payoff
  end.

(** The [max_profit] each branch reports. *)
Definition max_profit (st : strategy) (k : strikes) : metric :=
  match st with
  | BullSpread | BearSpread => Amount (upper_strike k - lower_strike k)
  | ButterflySpread => let wing_width := 10 in Amount wing_width
  | Straddle | Strangle | RiskReversal => Unlimited
  end.

(** The slider ranges of lines 438-444. *)
Definition in_slider_ranges (k : strikes) : Prop :=
  70 <= lower_strike k <= 100 /\ 100 <= upper_strike k <= 130
  /\ 80 <= center_strike k <= 120
  /\ 70 <= put_strike k <= 100 /\ 100 <= call_strike k <= 130.

End StrategiesEN.

Module Glossary.

Import String.
Local Open Scope string_scope.

(** The glossary texts are ASCII; on ASCII [str.lower] maps the
    letters [A]-[Z] to [a]-[z] and keeps every other character. *)
Definition lower_char (c : Ascii.ascii) : Ascii.ascii :=
  let n := Ascii.nat_of_ascii c in
  if andb (Nat.leb 65 n) (Nat.leb n 90) then Ascii.ascii_of_nat (n + 32)
  else c.

Fixpoint lower (s : string) : string :=
  match s with
  | EmptyString => EmptyString
  | String c rest => String (lower_char c) (lower rest)
  end.

(** [needle in hay]: [needle] occurs in [hay] as a substring. *)
Fixpoint contains (needle hay : string) : bool :=
  match hay with
  | EmptyString => prefix needle EmptyString
  | String _ rest => prefix needle hay || contains needle rest
  end.

Definition is_empty (s : string) : bool :=
  match s with
  | EmptyString => true
  | String _ _ => false
  end.

(** Lines 725-728: the dictionary comprehension, on the dictionary as
    its list of items in insertion order. *)
Definition filtered_glossary (glossary : list (string * string))
  (search_term : string) : list (string * string) :=
  if is_empty search_term then glossary
  else
    filter
      (fun kv =>
         contains (lower search_term) (lower (fst kv))
         || contains (lower search_term) (lower (snd kv)))
      glossary.

(** Lines 731-735: the entries shown, or the warning. *)
Inductive display : Type :=
| Entries (items : list (string * string))
| NoMatchWarning.

Definition show (glossary : list (string * string)) (search_term : string)
  : display :=
  match filtered_glossary glossary search_term with
  | [] => NoMatchWarning
  | items => Entries items
  end.

End Glossary.

(** ** Basic Options: breakeven, value summary, moneyness *)

Lemma py_max_Zmax (a b : Z) : BasicOptions.max a b = Z.max a b.
Proof. unfold BasicOptions.max. destruct (Z.ltb_spec a b); lia. Qed.

Lemma Rmax_IZR (a b : Z) : Rmax (IZR a) (IZR b) = IZR (Z.max a b).
Proof.
  unfold Rmax. destruct (Rle_dec (IZR a) (IZR b)) as [h | h].
  - apply le_IZR in h. now rewrite Z.max_r.
  - rewrite Z.max_l; [reflexivity |].
    destruct (Z.le_ge_cases b a) as [H | H]; [exact H |].
    exfalso. apply h. now apply IZR_le.
Qed.

(** X1.  With a premium that is not negative, the profit curve of a
    call is positive exactly at the grid prices above the breakeven
    [K + premium], and that of a put exactly at the prices below
    [K - premium]. *)
Theorem breakeven_separates_profit (K premium : Z) :
  (0 <= premium)%Z ->
  (exists (b : Z) (pay prof : ndarray R),
      BasicOptions.breakeven BasicOptions.Call K premium = Some b
      /\ BasicOptions.payoff_profit BasicOptions.Call K premium
         = BasicOptions.FloatCurves pay prof
      /\ Np.all2 (fun s p => 0 < p <-> IZR b < s) S_range prof)
  /\ (exists (b : Z) (pay prof : ndarray R),
         BasicOptions.breakeven BasicOptions.Put K premium = Some b
         /\ BasicOptions.payoff_profit BasicOptions.Put K premium
            = BasicOptions.FloatCurves pay prof
         /\ Np.all2 (fun s p => 0 < p <-> s < IZR b) S_range prof).
Proof.
  intros Hp. apply IZR_le in Hp. split.
  - do 3 eexists. split; [reflexivity |]. split; [reflexivity |].
    rewrite call_payoff_pointwise, ufunc_ufunc. apply all2_ufunc.
    intros s. rewrite plus_IZR. unfold Rmax.
    destruct (Rle_dec (s - IZR K) 0); split; lra.
  - do 3 eexists. split; [reflexivity |]. split; [reflexivity |].
    rewrite put_payoff_pointwise, ufunc_ufunc. apply all2_ufunc.
    intros s. rewrite minus_IZR. unfold Rmax.
    destruct (Rle_dec (IZR K - s) 0); split; lra.
Qed.

(** The default sliders: strike 100, premium 5. *)
Lemma breakeven_separates_profit_witness :
  exists (b : Z) (pay prof : ndarray R),
    BasicOptions.breakeven BasicOptions.Call 100 5 = Some b
    /\ BasicOptions.payoff_profit BasicOptions.Call 100 5
       = BasicOptions.FloatCurves pay prof
    /\ Np.all2 (fun s p => 0 < p <-> IZR b < s) S_range prof.
Proof. apply (breakeven_separates_profit 100 5). lia. Defined.

(** X2.  The breakeven line is drawn exactly when the breakeven price
    lies on the plotted axis from 50 to 150, for strikes and premiums
    in their slider ranges; a binary option gets no line. *)
Theorem breakeven_line_on_axis
  (ot : BasicOptions.option_type) (K premium b : Z) :
  (50 <= K <= 150)%Z -> (0 <= premium <= 20)%Z ->
  BasicOptions.breakeven_line ot K premium = Some b
  <-> BasicOptions.breakeven ot K premium = Some b /\ (50 <= b <= 150)%Z.
Proof.
  intros HK Hp. destruct ot; cbn.
  - destruct (Z.leb_spec (K + premium) 150); split.
    + intros [= <-]. split; [reflexivity | lia].
    + now intros [E _].
    + discriminate.
    + intros [[= <-] ?]. lia.
  - destruct (Z.leb_spec 50 (K - premium)); split.
    + intros [= <-]. split; [reflexivity | lia].
    + now intros [E _].
    + discriminate.
    + intros [[= <-] ?]. lia.
  - split; [discriminate | now intros [? _]].
  - split; [discriminate | now intros [? _]].
Qed.

Lemma breakeven_line_on_axis_witness :
  BasicOptions.breakeven_line BasicOptions.Call 100 5 = Some 105%Z
  <-> BasicOptions.breakeven BasicOptions.Call 100 5 = Some 105%Z
      /\ (50 <= 105 <= 150)%Z.
Proof. apply (breakeven_line_on_axis BasicOptions.Call 100 5 105); lia. Defined.

(** X3.  In the value summary the time value is never negative and
    intrinsic value plus time value is the larger of the premium and
    the intrinsic value: the two rows add up to the "Total Premium"
    row exactly when the intrinsic value does not exceed the premium. *)
Theorem value_summary_adds_up
  (ot : BasicOptions.option_type) (S0 K premium : Z) :
  let intrinsic := BasicOptions.current_intrinsic ot S0 K in
  let time := BasicOptions.time_value ot S0 K premium in
  (0 <= intrinsic)%Z
  /\ (0 <= time)%Z
  /\ (intrinsic + time)%Z = Z.max premium intrinsic
  /\ ((intrinsic + time)%Z = premium <-> (intrinsic <= premium)%Z).
Proof.
  cbv zeta. unfold BasicOptions.time_value. rewrite py_max_Zmax.
  assert (H : (0 <= BasicOptions.current_intrinsic ot S0 K)%Z).
  { destruct ot; cbn; rewrite ?py_max_Zmax; try lia.
    - destruct (K <? S0)%Z; lia.
    - destruct (S0 <? K)%Z; lia. }
  repeat split; lia.
Qed.

(** X4.  The moneyness label agrees with the intrinsic value: the
    option is "In-the-money" exactly when its intrinsic value is
    positive, and "At-the-money" exactly when the price equals the
    strike. *)
Theorem status_matches_intrinsic
  (ot : BasicOptions.option_type) (S0 K : Z) :
  (BasicOptions.status ot S0 K = BasicOptions.In_the_money
   <-> (0 < BasicOptions.current_intrinsic ot S0 K)%Z)
  /\ (BasicOptions.status ot S0 K = BasicOptions.At_the_money <-> S0 = K).
Proof.
  destruct ot; cbn; rewrite ?py_max_Zmax;
    destruct (Z.ltb_spec K S0), (Z.ltb_spec S0 K);
    repeat split; intros; try discriminate; try reflexivity; lia.
Qed.

(** X5.  The intrinsic value of the summary is the payoff function of
    the plotted curve evaluated at the current price. *)
Theorem intrinsic_is_payoff_at_current_price (S0 K : Z) :
  Scalar (IZR (BasicOptions.current_intrinsic BasicOptions.Call S0 K))
  = call_payoff (Scalar (IZR S0)) (IZR K)
  /\ Scalar (IZR (BasicOptions.current_intrinsic BasicOptions.Put S0 K))
     = put_payoff (Scalar (IZR S0)) (IZR K)
  /\ Scalar (BasicOptions.current_intrinsic BasicOptions.BinaryCall S0 K)
     = binary_call_payoff (Scalar (IZR S0)) (IZR K)
  /\ Scalar (BasicOptions.current_intrinsic BasicOptions.BinaryPut S0 K)
     = binary_put_payoff (Scalar (IZR S0)) (IZR K).
Proof.
  rewrite call_payoff_pointwise, put_payoff_pointwise.
  cbn [ufunc BasicOptions.current_intrinsic binary_call_payoff
         binary_put_payoff].
  rewrite !py_max_Zmax, <- !minus_IZR, !Rmax_IZR.
  repeat split; f_equal; unfold greater, less, astype_int.
  - destruct (Z.ltb_spec K S0) as [h | h], (Rlt_dec (IZR K) (IZR S0)) as [r | r];
      try reflexivity.
    + exfalso. apply r. now apply IZR_lt.
    + apply lt_IZR in r. lia.
  - destruct (Z.ltb_spec S0 K) as [h | h], (Rlt_dec (IZR S0) (IZR K)) as [r | r];
      try reflexivity.
    + exfalso. apply r. now apply IZR_lt.
    + apply lt_IZR in r. lia.
Qed.

(** ** Option Strategies: the shape of each payoff *)

Ltac split_Rmax :=
  unfold Rmax;
  repeat match goal with
         | |- context [Rle_dec ?a ?b] => destruct (Rle_dec a b)
         end.

Lemma bull_spread_closed (K1 K2 : R) :
  Strategies.bull_spread K1 K2
  = Py.Ok (ufunc (fun s => Rmax (s - K1) 0 + - Rmax (s - K2) 0) S_range).
Proof.
  unfold Strategies.bull_spread. cbv zeta.
  rewrite !call_payoff_pointwise, ufunc_ufunc. apply ufunc2_ufunc.
Qed.

Lemma bear_spread_closed (K1 K2 : R) :
  Strategies.bear_spread K1 K2
  = Py.Ok (ufunc (fun s => Rmax (K2 - s) 0 + - Rmax (K1 - s) 0) S_range).
Proof.
  unfold Strategies.bear_spread. cbv zeta.
  rewrite !put_payoff_pointwise, ufunc_ufunc. apply ufunc2_ufunc.
Qed.

Lemma strangle_closed (K1 K2 : R) :
  Strategies.strangle_payoff K1 K2
  = Py.Ok (ufunc (fun s => Rmax (s - K2) 0 + Rmax (K1 - s) 0) S_range).
Proof.
  unfold Strategies.strangle_payoff. cbv zeta.
  rewrite call_payoff_pointwise, put_payoff_pointwise. apply ufunc2_ufunc.
Qed.

Lemma butterfly_closed (K1 K2 K3 : R) :
  Strategies.butterfly_payoff K1 K2 K3
  = Py.Ok (ufunc (fun s => Rmax (s - K1) 0 + -2 * Rmax (s - K2) 0
                           + Rmax (s - K3) 0) S_range).
Proof.
  unfold Strategies.butterfly_payoff. cbv zeta.
  rewrite !call_payoff_pointwise, ufunc_ufunc, ufunc2_ufunc.
  cbn [Py.bind].
  apply (ufunc2_ufunc Rplus
           (fun s => Rmax (s - K1) 0 + -2 * Rmax (s - K2) 0)
           (fun s => Rmax (s - K3) 0)).
Qed.

Lemma risk_reversal_closed (K1 K2 : R) :
  Strategies.risk_reversal_payoff K1 K2
  = Py.Ok (ufunc (fun s => - Rmax (K1 - s) 0 + Rmax (s - K2) 0) S_range).
Proof.
  unfold Strategies.risk_reversal_payoff. cbv zeta.
  rewrite call_payoff_pointwise, put_payoff_pointwise, ufunc_ufunc.
  apply ufunc2_ufunc.
Qed.

(** X6.  With [K1 <= K2] the bull spread pays nothing up to the lower
    strike, never less than 0 nor more than [K2 - K1], and exactly
    [K2 - K1] from the higher strike on. *)
Theorem bull_spread_is_capped (K1 K2 : R) :
  K1 <= K2 ->
  exists payoff : ndarray R,
    Strategies.bull_spread K1 K2 = Py.Ok payoff
    /\ Np.all2 (fun s v => 0 <= v <= K2 - K1
                           /\ (s <= K1 -> v = 0)
                           /\ (K2 <= s -> v = K2 - K1))
         S_range payoff.
Proof.
  intros HK. eexists. split; [apply bull_spread_closed |].
  apply all2_ufunc. intros s. split_Rmax; repeat split; intros; lra.
Qed.

Lemma bull_spread_is_capped_witness :
  exists payoff : ndarray R,
    Strategies.bull_spread 90 110 = Py.Ok payoff
    /\ Np.all2 (fun s v => 0 <= v <= 110 - 90
                           /\ (s <= 90 -> v = 0)
                           /\ (110 <= s -> v = 110 - 90))
         S_range payoff.
Proof. apply (bull_spread_is_capped 90 110). lra. Defined.

(** X7.  With [K1 <= K2] the bear spread pays exactly [K2 - K1] up to
    the lower strike, never less than 0 nor more than [K2 - K1], and
    nothing from the higher strike on. *)
Theorem bear_spread_is_capped (K1 K2 : R) :
  K1 <= K2 ->
  exists payoff : ndarray R,
    Strategies.bear_spread K1 K2 = Py.Ok payoff
    /\ Np.all2 (fun s v => 0 <= v <= K2 - K1
                           /\ (s <= K1 -> v = K2 - K1)
                           /\ (K2 <= s -> v = 0))
         S_range payoff.
Proof.
  intros HK. eexists. split; [apply bear_spread_closed |].
  apply all2_ufunc. intros s. split_Rmax; repeat split; intros; lra.
Qed.

Lemma bear_spread_is_capped_witness :
  exists payoff : ndarray R,
    Strategies.bear_spread 90 110 = Py.Ok payoff
    /\ Np.all2 (fun s v => 0 <= v <= 110 - 90
                           /\ (s <= 90 -> v = 110 - 90)
                           /\ (110 <= s -> v = 0))
         S_range payoff.
Proof. apply (bear_spread_is_capped 90 110). lra. Defined.

(** X8.  A bull spread and a bear spread on the same two strikes add up
    to the constant [K2 - K1] at every grid price, whatever the order
    of the strikes. *)
Theorem bull_plus_bear_is_constant (K1 K2 : R) :
  exists bull bear : ndarray R,
    Strategies.bull_spread K1 K2 = Py.Ok bull
    /\ Strategies.bear_spread K1 K2 = Py.Ok bear
    /\ ufunc2 Rplus bull bear = Py.Ok (ufunc (fun _ => K2 - K1) S_range).
Proof.
  do 2 eexists. split; [apply bull_spread_closed |].
  split; [apply bear_spread_closed |].
  rewrite ufunc2_ufunc. f_equal. apply ufunc_ext. intros s.
  split_Rmax; lra.
Qed.

(** X9.  With [K1 <= K2] the strangle is never negative and pays
    nothing exactly at the prices between the two strikes; with both
    strikes equal it is the straddle. *)
Theorem strangle_is_flat_between_strikes (K1 K2 : R) :
  K1 <= K2 ->
  (exists payoff : ndarray R,
      Strategies.strangle_payoff K1 K2 = Py.Ok payoff
      /\ Np.all2 (fun s v => 0 <= v /\ (v = 0 <-> K1 <= s <= K2))
           S_range payoff)
  /\ Strategies.strangle_payoff K1 K1 = straddle_payoff K1.
Proof.
  intros HK. split.
  - eexists. split; [apply strangle_closed |].
    apply all2_ufunc. intros s. split_Rmax; repeat split; intros; lra.
  - reflexivity.
Qed.

Lemma strangle_is_flat_between_strikes_witness :
  exists payoff : ndarray R,
    Strategies.strangle_payoff 90 110 = Py.Ok payoff
    /\ Np.all2 (fun s v => 0 <= v /\ (v = 0 <-> 90 <= s <= 110))
         S_range payoff.
Proof.
  destruct (strangle_is_flat_between_strikes 90 110) as [H _]; [lra |].
  exact H.
Defined.

(** X10.  With [K1 <= K2 <= K3] the butterfly pays nothing up to the
    lowest strike, never more than [K2 - K1], and the constant
    [2 * K2 - K1 - K3] from the highest strike on: it is never negative
    when the wings are equal, and negative above [K3] when the upper
    wing is the wider one. *)
Theorem butterfly_is_bounded (K1 K2 K3 : R) :
  K1 <= K2 -> K2 <= K3 ->
  exists payoff : ndarray R,
    Strategies.butterfly_payoff K1 K2 K3 = Py.Ok payoff
    /\ Np.all2 (fun s v => v <= K2 - K1
                           /\ (s <= K1 -> v = 0)
                           /\ (s = K2 -> v = K2 - K1)
                           /\ (K3 <= s -> v = 2 * K2 - K1 - K3)
                           /\ (K3 - K2 <= K2 - K1 -> 0 <= v)
                           /\ (K2 - K1 < K3 - K2 -> K3 <= s -> v < 0))
         S_range payoff.
Proof.
  intros H12 H23. eexists. split; [apply butterfly_closed |].
  apply all2_ufunc. intros s. split_Rmax; repeat split; intros; lra.
Qed.

Lemma butterfly_is_bounded_witness :
  exists payoff : ndarray R,
    Strategies.butterfly_payoff 80 100 120 = Py.Ok payoff
    /\ Np.all2 (fun s v => v <= 100 - 80
                           /\ (s <= 80 -> v = 0)
                           /\ (s = 100 -> v = 100 - 80)
                           /\ (120 <= s -> v = 2 * 100 - 80 - 120)
                           /\ (120 - 100 <= 100 - 80 -> 0 <= v)
                           /\ (100 - 80 < 120 - 100 -> 120 <= s -> v < 0))
         S_range payoff.
Proof. apply (butterfly_is_bounded 80 100 120); lra. Defined.

(** X11.  With [K1 <= K2] the risk reversal loses [K1 - S] below the
    put strike, pays nothing between the strikes and [S - K2] above
    the call strike. *)
Theorem risk_reversal_shape (K1 K2 : R) :
  K1 <= K2 ->
  exists payoff : ndarray R,
    Strategies.risk_reversal_payoff K1 K2 = Py.Ok payoff
    /\ Np.all2 (fun s v => (s <= K1 -> v = s - K1)
                           /\ (K1 <= s <= K2 -> v = 0)
                           /\ (K2 <= s -> v = s - K2))
         S_range payoff.
Proof.
  intros HK. eexists. split; [apply risk_reversal_closed |].
  apply all2_ufunc. intros s. split_Rmax; repeat split; intros; lra.
Qed.

Lemma risk_reversal_shape_witness :
  exists payoff : ndarray R,
    Strategies.risk_reversal_payoff 90 110 = Py.Ok payoff
    /\ Np.all2 (fun s v => (s <= 90 -> v = s - 90)
                           /\ (90 <= s <= 110 -> v = 0)
                           /\ (110 <= s -> v = s - 110))
         S_range payoff.
Proof. apply (risk_reversal_shape 90 110). lra. Defined.

(** ** Factors Affecting Price *)

Lemma norm_cdf_increasing (x y : R) :
  x <= y -> Scipy.norm_cdf x <= Scipy.norm_cdf y.
Proof.
  intros Hxy. unfold Scipy.norm_cdf.
  rewrite <- (RiemannInt_P26 (Scipy.gauss_integrable 0 x)
                (Scipy.gauss_integrable x y) (Scipy.gauss_integrable 0 y)).
  assert (Hpos : 0 <= RiemannInt (Scipy.gauss_integrable x y)).
  { rewrite <- (Rmult_0_l (y - x)).
    rewrite <- (RiemannInt_P15 (RiemannInt_P14 x y 0)).
    apply RiemannInt_P19; [exact Hxy |].
    intros t _. unfold fct_cte, Scipy.gauss. left. apply exp_pos. }
  assert (Hc : 0 < / sqrt (2 * PI)).
  { apply Rinv_0_lt_compat, sqrt_lt_R0. pose proof PI_RGT_0. lra. }
  nra.
Qed.

Lemma textbook_d1_increasing (s1 s2 K r vol T : R) :
  0 < s1 -> s1 <= s2 -> 0 < K -> 0 < vol -> 0 < T ->
  Textbook.d1 s1 K r vol T <= Textbook.d1 s2 K r vol T.
Proof.
  intros H1 H12 HK Hv HT. unfold Textbook.d1.
  assert (Hd : 0 < vol * sqrt T).
  { apply Rmult_lt_0_compat; [exact Hv | now apply sqrt_lt_R0]. }
  apply Rmult_le_compat_r; [left; now apply Rinv_0_lt_compat |].
  apply Rplus_le_compat_r.
  destruct H12 as [H12 | ->]; [| lra].
  left. apply ln_increasing.
  - now apply Rdiv_lt_0_compat.
  - apply Rmult_lt_compat_r; [now apply Rinv_0_lt_compat | exact H12].
Qed.

Lemma d1_d2_ok (S_range : list R) (K r vol T : R) :
  Forall (fun s => 0 < s) S_range -> 0 < K -> 0 < vol -> 0 < T ->
  Factors.d1_d2 S_range K r vol T
  = Py.Ok (map (fun s => Textbook.d1 s K r vol T) S_range,
           map (fun s => Textbook.d2 s K r vol T) S_range).
Proof.
  intros HS HK Hv HT. unfold Factors.d1_d2.
  rewrite np_sqrt_ok by lra. cbn [Py.bind].
  rewrite truediv_ok by now apply vol_sqrt_T_nonzero. cbn [Py.bind].
  rewrite (for_each_map _ (fun s => ln (s / K))).
  2:{ eapply Forall_impl; [| exact HS]. cbv beta. intros s Hs.
      rewrite truediv_ok by lra. cbn [Py.bind].
      apply np_log_ok. now apply Rdiv_lt_0_compat. }
  cbn [Py.bind]. rewrite !map_map. f_equal. f_equal.
  - apply map_ext. intros s. unfold Textbook.d1, Rdiv. ring.
  - apply map_ext. intros s. unfold Textbook.d2, Textbook.d1, Rdiv. ring.
Qed.

Lemma call_prices_ok (S_range : list R) (K r vol T : R) :
  Factors.call_prices (Some Scipy.norm_cdf) S_range K r T
    (map (fun s => Textbook.d1 s K r vol T) S_range)
    (map (fun s => Textbook.d2 s K r vol T) S_range)
  = Py.Ok (map (fun s => Textbook.call s K r vol T) S_range).
Proof.
  unfold Factors.call_prices. cbn [Py.bind read_norm].
  rewrite !map_map, map2_self_map, map2_map. f_equal.
  apply map_ext. intros s. unfold Textbook.call, Textbook.N.
  now replace (- r * T) with (- (r * T)) by ring.
Qed.

Lemma put_prices_ok (S_range : list R) (K r vol T : R) :
  Factors.put_prices (Some Scipy.norm_cdf) S_range K r T
    (map (fun s => Textbook.d1 s K r vol T) S_range)
    (map (fun s => Textbook.d2 s K r vol T) S_range)
  = Py.Ok (map (fun s => Textbook.put s K r vol T) S_range).
Proof.
  unfold Factors.put_prices. cbn [Py.bind read_norm].
  rewrite !map_map, map2_self_map.
  rewrite (map2_map Rminus
             (fun s => K * exp (- r * T)
                       * Scipy.norm_cdf (- Textbook.d2 s K r vol T))
             (fun s => s * Scipy.norm_cdf (- Textbook.d1 s K r vol T))).
  f_equal. apply map_ext. intros s. unfold Textbook.put, Textbook.N.
  now replace (- r * T) with (- (r * T)) by ring.
Qed.

Lemma call_curve_ok (S_range : list R) (K r vol T : R) :
  Forall (fun s => 0 < s) S_range -> 0 < K -> 0 < vol -> 0 < T ->
  Factors.call_curve (Some Scipy.norm_cdf) S_range K r vol T
  = Py.Ok (map (fun s => Textbook.call s K r vol T) S_range).
Proof.
  intros HS HK Hv HT. unfold Factors.call_curve.
  rewrite d1_d2_ok by assumption. cbn [Py.bind fst snd].
  apply call_prices_ok.
Qed.

Lemma call_put_curves_ok (S_range : list R) (K r vol T : R) :
  Forall (fun s => 0 < s) S_range -> 0 < K -> 0 < vol -> 0 < T ->
  Factors.call_put_curves (Some Scipy.norm_cdf) S_range K r vol T
  = Py.Ok (map (fun s => Textbook.call s K r vol T) S_range,
           map (fun s => Textbook.put s K r vol T) S_range).
Proof.
  intros HS HK Hv HT. unfold Factors.call_put_curves.
  rewrite d1_d2_ok by assumption. cbn [Py.bind fst snd].
  rewrite call_prices_ok. cbn [Py.bind].
  rewrite put_prices_ok. reflexivity.
Qed.

Lemma call_curve_unbound (S_range : list R) (K r vol T : R) :
  Forall (fun s => 0 < s) S_range -> 0 < K -> 0 < vol -> 0 < T ->
  Factors.call_curve None S_range K r vol T
  = Py.Raise (Py.NameError "norm"%string).
Proof.
  intros HS HK Hv HT. unfold Factors.call_curve.
  rewrite d1_d2_ok by assumption. reflexivity.
Qed.

Lemma call_put_curves_unbound (S_range : list R) (K r vol T : R) :
  Forall (fun s => 0 < s) S_range -> 0 < K -> 0 < vol -> 0 < T ->
  Factors.call_put_curves None S_range K r vol T
  = Py.Raise (Py.NameError "norm"%string).
Proof.
  intros HS HK Hv HT. unfold Factors.call_put_curves.
  rewrite d1_d2_ok by assumption. reflexivity.
Qed.

Lemma price_grid_positive : Forall (fun s => 0 < s) (linspace 70 130 100).
Proof.
  apply Forall_forall. intros s Hs.
  apply linspace_increasing_lower in Hs; lra.
Qed.

(** X12.  Four of the five factor views never import [norm]: when the
    name is unbound on entry, as it is on the path that reaches them,
    "Time to Expiry", "Volatility", "Interest Rate" and "Strike Price"
    each stop with [NameError] in the first pass of their first loop,
    before any curve is produced. *)
Theorem factor_views_need_norm :
  Factors.time_to_expiry None = Py.Raise (Py.NameError "norm"%string)
  /\ Factors.volatility None = Py.Raise (Py.NameError "norm"%string)
  /\ Factors.interest_rate None = Py.Raise (Py.NameError "norm"%string)
  /\ Factors.strike_price None = Py.Raise (Py.NameError "norm"%string).
Proof.
  pose proof price_grid_positive as HS.
  unfold Factors.time_to_expiry, Factors.volatility, Factors.interest_rate,
    Factors.strike_price, Factors.T_values, Factors.vol_values,
    Factors.r_values, Factors.K_values.
  cbv zeta. cbn [Py.for_each].
  rewrite !call_curve_unbound, !call_put_curves_unbound by (assumption || lra).
  repeat split.
Qed.

Lemma for_each_const_ok {A B : Type} (body : A -> Py.result B) (f : A -> B)
  (xs : list A) :
  (forall x, In x xs -> body x = Py.Ok (f x)) ->
  Py.for_each body xs = Py.Ok (map f xs).
Proof. intros H. apply for_each_map, Forall_forall, H. Qed.

Lemma prices_by_strike_ok (S0 r vol T : R) :
  0 < S0 -> 0 < vol -> 0 < T ->
  Factors.prices_by_strike (Some Scipy.norm_cdf) S0 r vol T
  = Py.Ok (map (fun k => Textbook.call S0 k r vol T) (linspace 70 130 100),
           map (fun k => Textbook.put S0 k r vol T) (linspace 70 130 100)).
Proof.
  intros HS Hv HT. unfold Factors.prices_by_strike. cbv zeta.
  rewrite np_sqrt_ok by lra. cbn [Py.bind].
  rewrite truediv_ok by now apply vol_sqrt_T_nonzero. cbn [Py.bind].
  rewrite (for_each_map _ (fun k => ln (S0 / k))).
  2:{ eapply Forall_impl; [| exact price_grid_positive]. cbv beta.
      intros k Hk. rewrite truediv_ok by lra. cbn [Py.bind].
      apply np_log_ok. now apply Rdiv_lt_0_compat. }
  cbn [Py.bind read_norm]. rewrite !map_map.
  rewrite
    (map2_map Rmult (fun k => k * exp (- r * T))
       (fun k => Scipy.norm_cdf
                   (1 / (vol * sqrt T) * (ln (S0 / k) + (r + vol ^ 2 / 2) * T)
                    - vol * sqrt T))),
    (map2_map Rmult (fun k => k * exp (- r * T))
       (fun k => Scipy.norm_cdf
                   (- (1 / (vol * sqrt T)
                       * (ln (S0 / k) + (r + vol ^ 2 / 2) * T)
                       - vol * sqrt T)))).
  rewrite !map2_map. f_equal. f_equal.
  - apply map_ext. intros k.
    unfold Textbook.call, Textbook.d2, Textbook.d1, Textbook.N, Rdiv.
    replace (- r * T) with (- (r * T)) by ring.
    f_equal; f_equal; f_equal; ring.
  - apply map_ext. intros k.
    unfold Textbook.put, Textbook.d2, Textbook.d1, Textbook.N, Rdiv.
    replace (- r * T) with (- (r * T)) by ring.
    f_equal; f_equal; f_equal; ring.
Qed.

(** X13.  With [norm] bound to the normal distribution, every curve of
    the four factor views is the textbook Black-Scholes price on the
    grid: one call curve per horizon and per volatility, a call and a
    put curve per rate and per strike, and both prices as functions of
    the strike; no step runs into a numeric error. *)
Theorem factor_curves_are_textbook_prices :
  let norm := Some Scipy.norm_cdf in
  let grid := linspace 70 130 100 in
  (exists decay : list (R * R * R),
      time_decay norm = Py.Ok decay
      /\ Factors.time_to_expiry norm
         = Py.Ok (map (fun T =>
                         map (fun s => Textbook.call s 100 0.05 0.2 T) grid)
                    Factors.T_values,
                  decay))
  /\ Factors.volatility norm
     = Py.Ok (map (fun vol =>
                     map (fun s => Textbook.call s 100 0.05 vol 1) grid)
                Factors.vol_values,
              map (Factors.vol_smile 100) (linspace 80 120 9))
  /\ Factors.interest_rate norm
     = Py.Ok (map (fun r =>
                     (map (fun s => Textbook.call s 100 r 0.2 1) grid,
                      map (fun s => Textbook.put s 100 r 0.2 1) grid))
                Factors.r_values,
              Factors.pv_strike 100 1)
  /\ Factors.strike_price norm
     = Py.Ok (map (fun K =>
                     (map (fun s => Textbook.call s K 0.05 0.2 1) grid,
                      map (fun s => Textbook.put s K 0.05 0.2 1) grid))
                Factors.K_values,
              (map (fun k => Textbook.call 100 k 0.05 0.2 1) grid,
               map (fun k => Textbook.put 100 k 0.05 0.2 1) grid)).
Proof.
  cbv zeta. pose proof price_grid_positive as HS. repeat split.
  - pose proof time_decay_with_norm as Hok.
    destruct (time_decay (Some Scipy.norm_cdf)) as [decay |] eqn:E;
      [| contradiction].
    exists decay. split; [reflexivity |].
    unfold Factors.time_to_expiry. cbv zeta.
    rewrite (for_each_const_ok _
               (fun T => map (fun s => Textbook.call s 100 0.05 0.2 T)
                           (linspace 70 130 100))).
    + cbn [Py.bind]. now rewrite E.
    + intros T HT. apply call_curve_ok; try assumption; try lra.
      unfold Factors.T_values in HT. cbn [In] in HT.
      repeat (destruct HT as [<- | HT]; [lra |]). contradiction.
  - unfold Factors.volatility. cbv zeta.
    rewrite (for_each_const_ok _
               (fun vol => map (fun s => Textbook.call s 100 0.05 vol 1)
                             (linspace 70 130 100))); [reflexivity |].
    intros vol Hvol. apply call_curve_ok; try assumption; try lra.
    unfold Factors.vol_values in Hvol. cbn [In] in Hvol.
    repeat (destruct Hvol as [<- | Hvol]; [lra |]). contradiction.
  - unfold Factors.interest_rate. cbv zeta.
    rewrite (for_each_const_ok _
               (fun r => (map (fun s => Textbook.call s 100 r 0.2 1)
                            (linspace 70 130 100),
                          map (fun s => Textbook.put s 100 r 0.2 1)
                            (linspace 70 130 100)))); [reflexivity |].
    intros r _. apply call_put_curves_ok; try assumption; lra.
  - unfold Factors.strike_price. cbv zeta.
    rewrite (for_each_const_ok _
               (fun K => (map (fun s => Textbook.call s K 0.05 0.2 1)
                            (linspace 70 130 100),
                          map (fun s => Textbook.put s K 0.05 0.2 1)
                            (linspace 70 130 100)))).
    + cbn [Py.bind]. rewrite prices_by_strike_ok by lra. reflexivity.
    + intros K HK. apply call_put_curves_ok; try assumption; try lra.
      unfold Factors.K_values in HK. cbn [In] in HK.
      repeat (destruct HK as [<- | HK]; [lra |]). contradiction.
Qed.

Lemma StronglySorted_map_seq {A : Type} (Q : A -> A -> Prop) (f : nat -> A)
  (start len : nat) :
  (forall i j : nat,
      (start <= i)%nat -> (i < j)%nat -> (j < start + len)%nat ->
      Q (f i) (f j)) ->
  StronglySorted Q (map f (seq start len)).
Proof.
  revert start. induction len as [| len IH]; intros start H; simpl.
  - constructor.
  - constructor.
    + apply IH. intros i j Hi Hij Hj. apply H; lia.
    + apply Forall_forall. intros y Hy. apply in_map_iff in Hy.
      destruct Hy as (j & <- & Hj). apply in_seq in Hj. apply H; lia.
Qed.

Lemma INR_99 : INR (100 - 1) = 99.
Proof. change (100 - 1)%nat with 99%nat. now rewrite INR_IZR_INZ. Qed.

(** X14.  On the "Underlying Asset Price" view the call delta is
    [N (d1)] and the put delta, computed as [call_delta - 1], is
    [- N (- d1)]; both curves never decrease along the price grid. *)
Theorem delta_curves :
  exists call_delta put_delta : list R,
    Factors.deltas = Py.Ok (call_delta, put_delta)
    /\ call_delta
       = map (fun s => Textbook.N (Textbook.d1 s 100 0.05 0.2 1))
           (linspace 70 130 100)
    /\ put_delta
       = map (fun s => - Textbook.N (- Textbook.d1 s 100 0.05 0.2 1))
           (linspace 70 130 100)
    /\ StronglySorted Rle call_delta
    /\ StronglySorted Rle put_delta.
Proof.
  assert (Hmono : forall i j : nat,
             (i < j)%nat ->
             Textbook.N
               (Textbook.d1 (70 + INR i * ((130 - 70) / INR (100 - 1)))
                  100 0.05 0.2 1)
             <= Textbook.N
                  (Textbook.d1 (70 + INR j * ((130 - 70) / INR (100 - 1)))
                     100 0.05 0.2 1)).
  { intros i j Hij. apply norm_cdf_increasing.
    rewrite INR_99.
    assert (0 <= INR i) by apply pos_INR.
    assert (INR i <= INR j) by (apply le_INR; lia).
    apply textbook_d1_increasing; lra. }
  do 2 eexists. split; [| split; [reflexivity | split; [| split]]].
  - unfold Factors.deltas. cbv zeta.
    rewrite d1_d2_ok by (try apply price_grid_positive; lra).
    cbn [Py.bind read_norm fst]. rewrite !map_map. reflexivity.
  - apply map_ext. intros s. unfold Textbook.N.
    rewrite norm_cdf_sym. ring.
  - unfold linspace. cbv zeta. rewrite map_map.
    apply StronglySorted_map_seq. intros i j _ Hij _. now apply Hmono.
  - unfold linspace. cbv zeta. rewrite !map_map.
    apply StronglySorted_map_seq. intros i j _ Hij _.
    apply Rplus_le_compat_r. now apply Hmono.
Qed.

(** X15.  For a positive strike and horizon the present value of the
    strike, plotted over the rates from 1 % to 10 %, falls strictly
    from one rate to the next and stays strictly between 0 and the
    strike. *)
Theorem pv_strike_decreases (K T : R) :
  0 < K -> 0 < T ->
  StronglySorted Rgt (Factors.pv_strike K T)
  /\ Forall (fun v => 0 < v < K) (Factors.pv_strike K T).
Proof.
  intros HK HT. unfold Factors.pv_strike, linspace. cbv zeta.
  rewrite map_map, INR_99. split.
  - apply StronglySorted_map_seq. intros i j _ Hij _.
    apply Rmult_lt_compat_l; [exact HK |]. apply exp_increasing.
    assert (Hij' : INR i < INR j) by (apply lt_INR; lia).
    apply Rmult_lt_compat_r; [exact HT | lra].
  - apply Forall_forall. intros v Hv. apply in_map_iff in Hv.
    destruct Hv as (i & <- & _).
    assert (0 <= INR i) by apply pos_INR.
    pose proof (exp_pos (- (0.01 + INR i * ((0.10 - 0.01) / 99)) * T)) as Hp.
    assert (Hlt : exp (- (0.01 + INR i * ((0.10 - 0.01) / 99)) * T) < 1).
    { rewrite <- exp_0. apply exp_increasing.
      rewrite <- (Rmult_0_l T). apply Rmult_lt_compat_r; [exact HT | lra]. }
    split; nra.
Qed.

Lemma pv_strike_decreases_witness :
  StronglySorted Rgt (Factors.pv_strike 100 1)
  /\ Forall (fun v => 0 < v < 100) (Factors.pv_strike 100 1).
Proof. apply (pv_strike_decreases 100 1); lra. Defined.

(** X16.  The synthetic volatility smile is lowest, at 0.2, exactly at
    the strike [K] and symmetric around it; the nine plotted values read
    the same from either end. *)
Theorem vol_smile_is_symmetric (K k x : R) :
  0.2 <= Factors.vol_smile K k
  /\ (Factors.vol_smile K k = 0.2 <-> k = K)
  /\ Factors.vol_smile K (K + x) = Factors.vol_smile K (K - x)
  /\ rev (map (Factors.vol_smile 100) (linspace 80 120 9))
     = map (Factors.vol_smile 100) (linspace 80 120 9).
Proof.
  unfold Factors.vol_smile. cbv zeta. repeat split.
  - pose proof (pow2_ge_0 (k - K)). lra.
  - intros H. assert (E : (k - K) * (k - K) = 0) by (simpl pow in H; lra).
    apply Rmult_integral in E. lra.
  - intros ->. ring.
  - ring.
  - unfold linspace. cbv zeta. cbn [seq map rev app Nat.sub INR pow].
    repeat (apply f_equal2; [lra |]). reflexivity.
Qed.

(** ** options-EN.py: the Put-Call Parity page *)

(** X17.  Whichever price the user enters, the table's "C - P" equals
    its "S - E e^(-rT)" row; with no time left that row is [S - E]; the
    derived price is not floored at zero: the put comes out negative
    exactly when the entered call is below the right side, and the call
    exactly when the entered put is below its negation. *)
Theorem en_parity_table_is_consistent
  (S E : Z) (rate_pct T price : R) (choice : ParityEN.option_choice) :
  let table := ParityEN.put_call_parity S E rate_pct T choice price in
  ParityEN.c_minus_p table = ParityEN.right_side table
  /\ ParityEN.right_side table = IZR S - ParityEN.discounted_strike table
  /\ ParityEN.right_side
       (ParityEN.put_call_parity S E rate_pct 0 choice price)
     = IZR S - IZR E
  /\ (ParityEN.put_price
        (ParityEN.put_call_parity S E rate_pct T ParityEN.InputCall price) < 0
      <-> price < ParityEN.right_side table)
  /\ (ParityEN.call_price
        (ParityEN.put_call_parity S E rate_pct T ParityEN.InputPut price) < 0
      <-> price < - ParityEN.right_side table).
Proof.
  cbv zeta. destruct choice; cbn; rewrite ?Rmult_0_r, ?exp_0;
    repeat split; intros; lra.
Qed.

(** ** options-EN.py: the Option Payoffs page, both sides of a trade *)

Lemma map2_map_Z {A : Type} (f : Z -> Z -> Z) (g h : A -> Z) (l : list A) :
  map2 f (map g l) (map h l) = map (fun x => f (g x) (h x)) l.
Proof. apply map2_map. Qed.

(** X18.  On the Option Payoffs page the profit of the short position
    is the exact opposite of the profit of the long position, for calls
    and for puts: at every grid price the two add up to zero. *)
Theorem long_and_short_profits_cancel
  (ot : OptionsEN.option_type) (strike premium : Z) :
  map2 Z.add
    (OptionsEN.profits
       (OptionsEN.payoff_diagram ot OptionsEN.Long strike premium))
    (OptionsEN.profits
       (OptionsEN.payoff_diagram ot OptionsEN.Short strike premium))
  = map (fun _ => 0%Z) OptionsEN.stock_prices.
Proof.
  destruct ot; cbn [OptionsEN.profits OptionsEN.payoff_diagram];
    rewrite !map_map, map2_map; apply map_ext; intros s; lia.
Qed.

(** ** options-EN.py: the Option Strategies page *)

Lemma in_arange (start stop s : Z) :
  (start <= s < stop)%Z -> In s (arange start stop).
Proof.
  intros H. unfold arange. apply in_map_iff.
  exists (Z.to_nat (s - start)). split; [lia |].
  apply in_seq. lia.
Qed.

Lemma en_long_leg (strike : Z) :
  StrategiesEN.long_leg strike
  = map (fun s => Z.max (s - strike) 0) StrategiesEN.stock_prices.
Proof.
  unfold StrategiesEN.long_leg. rewrite map_map.
  apply map_ext. intros; apply maximum_Zmax.
Qed.

Lemma en_long_put_leg (strike : Z) :
  StrategiesEN.long_put_leg strike
  = map (fun s => Z.max (strike - s) 0) StrategiesEN.stock_prices.
Proof.
  unfold StrategiesEN.long_put_leg. rewrite map_map.
  apply map_ext. intros; apply maximum_Zmax.
Qed.

Lemma en_payoffs_closed (st : StrategiesEN.strategy) (k : StrategiesEN.strikes) :
  StrategiesEN.payoffs st k
  = map (fun s =>
           match st with
           | StrategiesEN.BullSpread =>
               Z.max (s - StrategiesEN.lower_strike k) 0
               - Z.max (s - StrategiesEN.upper_strike k) 0
           | StrategiesEN.BearSpread =>
               Z.max (StrategiesEN.upper_strike k - s) 0
               - Z.max (StrategiesEN.lower_strike k - s) 0
           | StrategiesEN.Straddle =>
               Z.max (s - StrategiesEN.center_strike k) 0
               + Z.max (StrategiesEN.center_strike k - s) 0
           | StrategiesEN.Strangle =>
               Z.max (s - StrategiesEN.call_strike k) 0
               + Z.max (StrategiesEN.put_strike k - s) 0
           | StrategiesEN.ButterflySpread =>
               Z.max (s - (StrategiesEN.center_strike k - 10)) 0
               - 2 * Z.max (s - StrategiesEN.center_strike k) 0
               + Z.max (s - (StrategiesEN.center_strike k + 10)) 0
           | StrategiesEN.RiskReversal =>
               Z.max (s - StrategiesEN.upper_strike k) 0
               - Z.max (StrategiesEN.lower_strike k - s) 0
           end)%Z
      StrategiesEN.stock_prices.
Proof.
  destruct st; cbn [StrategiesEN.payoffs];
    rewrite ?en_long_leg, ?en_long_put_leg, ?map_map, ?map2_map;
    apply map_ext; intros s; lia.
Qed.

(** X19.  With the strikes in their slider ranges, the "Maximum Profit"
    metric of the bull spread, the bear spread and the butterfly is the
    largest plotted payoff: no grid price pays more, none pays less than
    nothing, and one grid price pays exactly that amount. *)
Theorem en_max_profit_is_attained
  (st : StrategiesEN.strategy) (k : StrategiesEN.strikes) (m : Z) :
  StrategiesEN.in_slider_ranges k ->
  StrategiesEN.max_profit st k = StrategiesEN.Amount m ->
  Forall (fun v => (0 <= v <= m)%Z) (StrategiesEN.payoffs st k)
  /\ In m (StrategiesEN.payoffs st k).
Proof.
  intros (Hl & Hu & Hc & _ & _) Hm. rewrite en_payoffs_closed.
  destruct st; cbn in Hm; try discriminate; injection Hm as <-; split;
    try (apply Forall_map, Forall_forall; intros s _; lia).
  - apply in_map_iff. exists (StrategiesEN.upper_strike k).
    split; [lia | apply in_arange; lia].
  - apply in_map_iff. exists (StrategiesEN.lower_strike k).
    split; [lia | apply in_arange; lia].
  - apply in_map_iff. exists (StrategiesEN.center_strike k).
    split; [lia | apply in_arange; lia].
Qed.

(** The default sliders of the bull spread: strikes 90 and 110. *)
Lemma en_max_profit_is_attained_witness :
  let k := {| StrategiesEN.lower_strike := 90;
              StrategiesEN.upper_strike := 110;
              StrategiesEN.center_strike := 100;
              StrategiesEN.put_strike := 90;
              StrategiesEN.call_strike := 110 |} in
  Forall (fun v => (0 <= v <= 20)%Z)
    (StrategiesEN.payoffs StrategiesEN.BullSpread k)
  /\ In 20%Z (StrategiesEN.payoffs StrategiesEN.BullSpread k).
Proof.
  cbv zeta. apply en_max_profit_is_attained.
  - unfold StrategiesEN.in_slider_ranges. cbn. lia.
  - reflexivity.
Defined.

(** X20.  The straddle and the strangle of [options-EN.py] never pay
    less than nothing and the straddle is [|S - strike|]; with
    [lower_strike <= upper_strike] the risk reversal is the strategy
    whose plotted payoff goes below zero: it loses [lower_strike - S] at
    every grid price under the lower strike. *)
Theorem en_unlimited_strategies (k : StrategiesEN.strikes) :
  (StrategiesEN.lower_strike k <= StrategiesEN.upper_strike k)%Z ->
  Forall (fun v => (0 <= v)%Z)
    (StrategiesEN.payoffs StrategiesEN.Straddle k)
  /\ Forall (fun v => (0 <= v)%Z)
       (StrategiesEN.payoffs StrategiesEN.Strangle k)
  /\ StrategiesEN.payoffs StrategiesEN.Straddle k
     = map (fun s => Z.abs (s - StrategiesEN.center_strike k))
         StrategiesEN.stock_prices
  /\ Forall2 (fun s v => (s < StrategiesEN.lower_strike k ->
                          v = s - StrategiesEN.lower_strike k /\ v < 0)%Z)
       StrategiesEN.stock_prices
       (StrategiesEN.payoffs StrategiesEN.RiskReversal k).
Proof.
  intros Hlu. rewrite !en_payoffs_closed. repeat split.
  - apply Forall_map, Forall_forall; intros s _; lia.
  - apply Forall_map, Forall_forall; intros s _; lia.
  - apply map_ext; intros s; lia.
  - induction StrategiesEN.stock_prices as [| s l IH]; simpl;
      constructor; [lia | exact IH].
Qed.

Lemma en_unlimited_strategies_witness :
  let k := {| StrategiesEN.lower_strike := 90;
              StrategiesEN.upper_strike := 110;
              StrategiesEN.center_strike := 100;
              StrategiesEN.put_strike := 90;
              StrategiesEN.call_strike := 110 |} in
  Forall (fun v => (0 <= v)%Z)
    (StrategiesEN.payoffs StrategiesEN.Straddle k)
  /\ Forall (fun v => (0 <= v)%Z)
       (StrategiesEN.payoffs StrategiesEN.Strangle k).
Proof.
  cbv zeta.
  destruct (en_unlimited_strategies
              {| StrategiesEN.lower_strike := 90;
                 StrategiesEN.upper_strike := 110;
                 StrategiesEN.center_strike := 100;
                 StrategiesEN.put_strike := 90;
                 StrategiesEN.call_strike := 110 |}) as (H1 & H2 & _).
  - cbn. lia.
  - split; assumption.
Defined.

(** ** The time-decay loop, run to its end *)

Lemma last_map {A B : Type} (f : A -> B) (l : list A) (d : A) (d' : B) :
  l <> [] -> last (map f l) d' = f (last l d).
Proof.
  induction l as [| x l IH]; [contradiction |]. intros _.
  destruct l as [| y l]; [reflexivity |].
  apply IH. discriminate.
Qed.

(** X21.  With [norm] bound the time-decay loop produces one triple of
    call prices per day sample, a hundred in all, and its last triple,
    at expiry, is the intrinsic value of the three options: 0 at the
    money, 0 out of the money and 10 in the money. *)
Theorem time_decay_ends_at_intrinsic_value :
  exists decay : list (R * R * R),
    time_decay (Some Scipy.norm_cdf) = Py.Ok decay
    /\ length decay = 100%nat
    /\ last decay (0, 0, 0) = (0, 0, 10).
Proof.
  pose (f := fun T : R =>
               if Req_dec_T T 0 then (0, 0, 10)
               else (Textbook.call 100 100 0.05 0.2 T,
                     Textbook.call (100 * 0.9) 100 0.05 0.2 T,
                     Textbook.call (100 * 1.1) 100 0.05 0.2 T)).
  exists (map f years). split; [| split].
  - unfold time_decay. apply for_each_map, Forall_forall. intros T HT.
    apply years_nonnegative in HT. unfold f.
    destruct (Req_dec_T T 0) as [-> | Hne].
    + apply time_decay_step_at_expiry.
    + apply time_decay_step_before_expiry. lra.
  - unfold years, linspace. now rewrite !length_map, length_seq.
  - unfold years, linspace. cbv zeta. rewrite !map_map.
    rewrite (last_map _ _ 0%nat) by discriminate.
    change (seq 0 100) with (seq 0 99 ++ [99%nat]). rewrite last_last.
    unfold f. rewrite INR_99, (INR_IZR_INZ 99). simpl Z.of_nat.
    destruct (Req_dec_T ((365 + 99 * ((0 - 365) / 99)) / 365) 0) as [_ | Hne];
      [reflexivity | exfalso; apply Hne; lra].
Qed.

(** ** options-EN.py: the glossary search *)

Section GlossarySearch.

Import String.
Local Open Scope string_scope.

Lemma prefix_iff (n h : string) :
  prefix n h = true <-> exists post, h = n ++ post.
Proof.
  revert h. induction n as [| c n IH]; intros h.
  - split; [intros _; now exists h | intros _; now destruct h].
  - destruct h as [| c' h]; simpl.
    + split; [discriminate | intros [post E]; discriminate].
    + destruct (Ascii.ascii_dec c c') as [-> | Hne].
      * rewrite IH. split; intros [post E]; exists post.
        -- now rewrite E.
        -- now injection E.
      * split; [discriminate |].
        intros [post E]. injection E as E _. now elim Hne.
Qed.

Lemma contains_iff (n h : string) :
  Glossary.contains n h = true <-> exists pre post, h = pre ++ n ++ post.
Proof.
  induction h as [| c h IH]; cbn [Glossary.contains].
  - rewrite prefix_iff. split.
    + intros [post E]. now exists "", post.
    + intros (pre & post & E). destruct pre; [now exists post |].
      discriminate.
  - rewrite Bool.orb_true_iff, prefix_iff, IH. split.
    + intros [[post E] | (pre & post & E)].
      * now exists "", post.
      * exists (String c pre), post. simpl. now rewrite E.
    + intros (pre & post & E). destruct pre as [| c' pre].
      * left. now exists post.
      * right. exists pre, post. simpl in E. now injection E.
Qed.

Lemma contains_refl (s : string) : Glossary.contains s s = true.
Proof.
  apply contains_iff. exists "", "". simpl.
  induction s as [| c s IH]; simpl; [reflexivity | now rewrite <- IH].
Qed.

Lemma is_empty_lower (s : string) :
  Glossary.is_empty (Glossary.lower s) = Glossary.is_empty s.
Proof. now destruct s. Qed.

(** X23.  The search ignores letter case: two search terms with the
    same lower-case form list the same entries, in the same order. *)
Theorem glossary_search_ignores_case (glossary : list (string * string))
  (t1 t2 : string) :
  Glossary.lower t1 = Glossary.lower t2 ->
  Glossary.filtered_glossary glossary t1
  = Glossary.filtered_glossary glossary t2
  /\ Glossary.show glossary t1 = Glossary.show glossary t2.
Proof.
  intros E.
  assert (H : Glossary.filtered_glossary glossary t1
              = Glossary.filtered_glossary glossary t2).
  { unfold Glossary.filtered_glossary.
    rewrite <- (is_empty_lower t1), <- (is_empty_lower t2), E.
    reflexivity. }
  split; [exact H |]. unfold Glossary.show. now rewrite H.
Qed.

Lemma glossary_search_ignores_case_witness :
  Glossary.filtered_glossary
    [("Delta", "A measure of price change"); ("Vega", "Sensitivity")] "DELTA"
  = Glossary.filtered_glossary
      [("Delta", "A measure of price change"); ("Vega", "Sensitivity")] "delta".
Proof.
  destruct (glossary_search_ignores_case
              [("Delta", "A measure of price change"); ("Vega", "Sensitivity")]
              "DELTA" "delta") as [H _]; [reflexivity | exact H].
Defined.

(** X24.  Typing the name of a glossary term, in any letter case,
    always lists that term and never shows the warning. *)
Theorem glossary_finds_term_by_name (glossary : list (string * string))
  (search_term k v : string) :
  In (k, v) glossary ->
  Glossary.lower search_term = Glossary.lower k ->
  In (k, v) (Glossary.filtered_glossary glossary search_term)
  /\ Glossary.show glossary search_term <> Glossary.NoMatchWarning.
Proof.
  intros Hin E.
  assert (H : In (k, v) (Glossary.filtered_glossary glossary search_term)).
  { unfold Glossary.filtered_glossary.
    destruct (Glossary.is_empty search_term); [exact Hin |].
    apply filter_In. split; [exact Hin |]. cbn [fst snd].
    now rewrite E, contains_refl. }
  split; [exact H |]. unfold Glossary.show.
  destruct (Glossary.filtered_glossary glossary search_term);
    [contradiction | discriminate].
Qed.

Lemma glossary_finds_term_by_name_witness :
  In ("Vega", "Sensitivity")
    (Glossary.filtered_glossary
       [("Delta", "A measure of price change"); ("Vega", "Sensitivity")]
       "vEGA").
Proof.
  destruct (glossary_finds_term_by_name
              [("Delta", "A measure of price change"); ("Vega", "Sensitivity")]
              "vEGA" "Vega" "Sensitivity") as [H _].
  - right. left. reflexivity.
  - reflexivity.
  - exact H.
Defined.

End GlossarySearch.

(** * Expiry: the pricing lines with float64 special values *)

(** ** float64 values outside the reals *)

Module Float64.

(** A float64 is a real number, an infinity or a NaN.  Zero carries no
    sign here: a zero divisor counts as [+0.0], the zero that the square
    root and the products of non-negative numbers produce. *)
Inductive value : Type :=
| Fin (x : R)
| PInf
| NInf
| NaN.

(** The [RuntimeWarning]s of NumPy: "divide by zero encountered" and
    "invalid value encountered". *)
Inductive warning : Type :=
| DivideByZero
| InvalidValue.

(** An evaluation ends in a Python exception, or in a value together
    with the warnings emitted on the way. *)
Definition eval (A : Type) : Type := Py.result (A * list warning).

Definition ret {A : Type} (a : A) : eval A := Py.Ok (a, []).

Definition warn {A : Type} (w : warning) (a : A) : eval A := Py.Ok (a, [w]).

Definition bind {A B : Type} (m : eval A) (k : A -> eval B) : eval B :=
  match m with
  | Py.Ok (a, ws) =>
      match k a with
      | Py.Ok (b, ws') => Py.Ok (b, ws ++ ws')
      | Py.Raise e => Py.Raise e
      end
  | Py.Raise e => Py.Raise e
  end.

(** An operation on plain Python numbers: an exception or a number, no
    warning. *)
Definition python {A : Type} (m : Py.result A) : eval A :=
  match m with
  | Py.Ok a => ret a
  | Py.Raise e => Py.Raise e
  end.


Definition neg (a : value) : value :=
  match a with
  | Fin x => Fin (- x)
  | PInf => NInf
  | NInf => PInf
  | NaN => NaN
  end.

(** An infinity times a finite number: the sign follows the number,
    and [inf * 0] is invalid. *)
Definition scale (inf : value) (x : R) : eval value :=
  if Rlt_dec 0 x then ret inf
  else if Rlt_dec x 0 then ret (neg inf)
  else warn InvalidValue NaN.

Definition add (a b : value) : eval value :=
  match a, b with
  | NaN, _ | _, NaN => ret NaN
  | Fin x, Fin y => ret (Fin (x + y))
  | PInf, NInf | NInf, PInf => warn InvalidValue NaN
  | PInf, _ | _, PInf => ret PInf
  | NInf, _ | _, NInf => ret NInf
  end.

Definition sub (a b : value) : eval value := add a (neg b).

Definition mul (a b : value) : eval value :=
  match a, b with
  | NaN, _ | _, NaN => ret NaN
  | Fin x, Fin y => ret (Fin (x * y))
  | Fin x, PInf | PInf, Fin x => scale PInf x
  | Fin x, NInf | NInf, Fin x => scale NInf x
  | PInf, PInf | NInf, NInf => ret PInf
  | PInf, NInf | NInf, PInf => ret NInf
  end.

Definition div (a b : value) : eval value :=
  match a, b with
  | NaN, _ | _, NaN => ret NaN
  | Fin x, Fin y =>
      if Req_dec_T y 0 then
        if Rlt_dec 0 x then warn DivideByZero PInf
        else if Rlt_dec x 0 then warn DivideByZero NInf
        else warn InvalidValue NaN
      else ret (Fin (x / y))
  | Fin _, PInf | Fin _, NInf => ret (Fin 0)
  | PInf, Fin y => if Rle_dec 0 y then ret PInf else ret NInf
  | NInf, Fin y => if Rle_dec 0 y then ret NInf else ret PInf
  | PInf, PInf | PInf, NInf | NInf, PInf | NInf, NInf =>
      warn InvalidValue NaN
  end.

(** [np.sqrt], [np.log] and [np.exp] on a Python float. *)
Definition np_sqrt (x : R) : eval value :=
  if Rle_dec 0 x then ret (Fin (sqrt x)) else warn InvalidValue NaN.

Definition np_log (x : R) : eval value :=
  if Rlt_dec 0 x then ret (Fin (ln x))
  else if Rlt_dec x 0 then warn InvalidValue NaN
  else warn DivideByZero NInf.

Definition np_exp (x : R) : value := Fin (exp x).

(** [scipy.stats.norm.cdf]: 1 at [+inf], 0 at [-inf], NaN at NaN. *)
Definition norm_cdf (a : value) : value :=
  match a with
  | Fin x => Fin (Scipy.norm_cdf x)
  | PInf => Fin 1
  | NInf => Fin 0
  | NaN => NaN
  end.

End Float64.

Notation "x <~ m ;; k" := (Float64.bind m (fun x => k))
  (at level 61, m at next level, right associativity).

(** ** src/option-payoffs-app.py: lines 478-494 and 693-718 again *)

Module AtExpiry.

Import Float64.

(** Line 479.  [S/K] divides two Python numbers; every other operation
    is a NumPy operation on float64. *)
Definition d1 (S K r vol T : R) : eval value :=
  sqrt_T <~ np_sqrt T ;;
  vol_sqrt_T <~ mul (Fin vol) sqrt_T ;;
  inv <~ div (Fin 1) vol_sqrt_T ;;
  moneyness <~ python (Py.truediv S K) ;;
  log_m <~ np_log moneyness ;;
  drift <~ add log_m (Fin ((r + vol ^ 2 / 2) * T)) ;;
  mul inv drift.

(** Line 480. *)
Definition d2 (d1 : value) (vol T : R) : eval value :=
  sqrt_T <~ np_sqrt T ;;
  vol_sqrt_T <~ mul (Fin vol) sqrt_T ;;
  sub d1 vol_sqrt_T.

(** Lines 482-483, with [cdf] the function [norm.cdf] evaluates to. *)
Definition call_price (cdf : value -> value) (S K r T : R) (d1 d2 : value)
  : eval value :=
  asset_leg <~ mul (Fin S) (cdf d1) ;;
  pv_strike <~ mul (Fin K) (np_exp (- r * T)) ;;
  strike_leg <~ mul pv_strike (cdf d2) ;;
  sub asset_leg strike_leg.

Definition put_price (cdf : value -> value) (S K r T : R) (d1 d2 : value)
  : eval value :=
  pv_strike <~ mul (Fin K) (np_exp (- r * T)) ;;
  strike_leg <~ mul pv_strike (cdf (neg d2)) ;;
  asset_leg <~ mul (Fin S) (cdf (neg d1)) ;;
  sub strike_leg asset_leg.

(** The global name [norm]: bound to scipy's distribution or unbound. *)
Definition norm_binding : Type := option (value -> value).

Definition read_norm (norm : norm_binding) : eval (value -> value) :=
  match norm with
  | Some cdf => ret cdf
  | None => Py.Raise (Py.NameError "norm"%string)
  end.

(** Lines 478-483: the two prices of the Put-Call Parity page. *)
Definition put_call_parity (S0 K r T : R) : eval (value * value) :=
  let vol := 0.2 in
  d1 <~ d1 S0 K r vol T ;;
  d2 <~ d2 d1 vol T ;;
  let norm := Some Float64.norm_cdf in
  cdf <~ read_norm norm ;;
  call_price <~ call_price cdf S0 K r T d1 d2 ;;
  cdf' <~ read_norm norm ;;
  put_price <~ put_price cdf' S0 K r T d1 d2 ;;
  ret (call_price, put_price).

(** Lines 702-704 and their two copies. *)
Definition bs_call (norm : norm_binding) (S K r vol T : R) : eval value :=
  d1 <~ d1 S K r vol T ;;
  d2 <~ d2 d1 vol T ;;
  cdf <~ read_norm norm ;;
  call_price cdf S K r T d1 d2.

(** Lines 693-718: one pass of the time-decay loop. *)
Definition time_decay_step (norm : norm_binding) (T : R)
  : eval (value * value * value) :=
  let S0 := 100 in
  let K := 100 in
  let r := 0.05 in
  let vol := 0.2 in
  if Req_dec_T T 0 then
    let atm_call := Py.max (S0 - K) 0 in
    let otm_call := Py.max (S0 * 0.9 - K) 0 in
    let itm_call := Py.max (S0 * 1.1 - K) 0 in
    ret (Fin atm_call, Fin otm_call, Fin itm_call)
  else
    atm_call <~ bs_call norm S0 K r vol T ;;
    otm_call <~ bs_call norm (S0 * 0.9) K r vol T ;;
    itm_call <~ bs_call norm (S0 * 1.1) K r vol T ;;
    ret (atm_call, otm_call, itm_call).


End AtExpiry.

(** ** Evaluating with special values *)


























